(** * SPED-AGI quantum core: encoder, error mitigation and memory interface

    A shallow embedding of [core/quantum/encoding_methods.py],
    [core/quantum/error_mitigation.py] and [core/quantum/memory_interface.py],
    followed by the properties of the specification that concern them.

    Conventions of the embedding.
    - A Python call either returns a value or raises: [result A].
    - float64 is idealised by the real numbers [R], complex128 by pairs of
      reals.  numpy arithmetic never raises on values (a division by zero
      yields nan or inf with a warning only), so every arithmetic operation is
      a total function here as well; only shapes make numpy raise, and the
      shape rules are written out in [Np].  A float64 array that flows into a
      complex context is carried with zero imaginary parts, which is numpy's
      own promotion.
    - [TimestampManager.get_current_timestamp] is called throughout the quantum
      modules but is not defined by [core/utils/timestamp_manager.py]; the
      readings of the timestamp service are therefore inputs: an operation
      receives [now : nat -> string], the i-th reading it makes.
    - [id(circuit)] is the address of a Python object; an object that is
      created by the modelled code receives its address as an input too.
    - [LoggingManager.log_event] is modelled in [Logging] by what makes it
      raise: an unknown category or level, or an argument that [json.dumps]
      cannot encode.  The calls that hand it a whole record are written out
      where they stand ([encode_quantum_state], [store_state]); the other
      calls of the quantum modules pass the category "quantum", a known
      level and strings, numbers, booleans and lists and dictionaries of
      these, so they return and are not written. *)

From Stdlib Require Import Reals Lra Lia ZArith List Ascii String.
From stdpp Require Import gmap strings pretty.

(** ** Python values and exceptions *)

Module Py.

(** The exceptions the modelled code can raise. *)
Inductive exn :=
| ValueError (msg : string)
| KeyError (msg : string)
| UnboundLocalError (msg : string)
| TypeError (msg : string).

Inductive result (A : Type) :=
| Ok (a : A)
| Raise (e : exn).
Arguments Ok {A} a.
Arguments Raise {A} e.

Definition bind {A B} (r : result A) (k : A -> result B) : result B :=
  match r with
  | Ok a => k a
  | Raise e => Raise e
  end.

Definition raised {A} (r : result A) : option exn :=
  match r with
  | Ok _ => None
  | Raise e => Some e
  end.

(** The values that occur in the dictionaries passed around. *)
Inductive obj :=
| PStr (s : string)
| PInt (z : Z)
| PBool (b : bool)
| PInts (l : list nat).

Definition dict := list (string * obj).

(** A dictionary with string keys, in insertion order: [d.get(k)],
    [d[k] = v] and [d.update(e)]. *)
Fixpoint dict_get {V} (d : list (string * V)) (k : string) : option V :=
  match d with
  | [] => None
  | (k', v) :: d' => if String.eqb k' k then Some v else dict_get d' k
  end.

Fixpoint dict_set {V} (d : list (string * V)) (k : string) (v : V)
  : list (string * V) :=
  match d with
  | [] => [(k, v)]
  | (k', v') :: d' =>
      if String.eqb k' k then (k', v) :: d' else (k', v') :: dict_set d' k v
  end.

Definition dict_update {V} (d e : list (string * V)) : list (string * V) :=
  fold_left (fun acc kv => dict_set acc (fst kv) (snd kv)) e d.

(** A dictionary object: its address, which [id] returns, and its items. *)
Record dictobj := { py_id : Z; py_items : dict }.

(** Readings of the timestamp service, by ordinal within one operation. *)
Definition readings := nat -> string.

Definition later (k : nat) (now : readings) : readings :=
  fun i => now (k + i)%nat.

End Py.

Import Py.

#[global] Instance result_mbind : MBind result := fun A B k r => bind r k.
#[global] Instance result_mret : MRet result := fun A a => Ok a.

(** ** The numpy operations the code uses, on one-dimensional arrays *)

Module Np.

Local Open Scope R_scope.

Definition C : Type := R * R.

Definition RtoC (x : R) : C := (x, 0).
Definition Cadd (a b : C) : C := (fst a + fst b, snd a + snd b).
Definition Cmul (a b : C) : C :=
  (fst a * fst b - snd a * snd b, fst a * snd b + snd a * fst b).
Definition Cscale (a : C) (x : R) : C := (fst a * x, snd a * x).
Definition Cdiv (a : C) (x : R) : C := (fst a / x, snd a / x).
Definition Cconj (a : C) : C := (fst a, - snd a).
Definition Cabs (a : C) : R := sqrt (fst a * fst a + snd a * snd a).
Definition Cexp (a : C) : C :=
  (exp (fst a) * cos (snd a), exp (fst a) * sin (snd a)).

Definition Cnonzero (a : C) : bool :=
  if Req_dec_T (fst a) 0
  then (if Req_dec_T (snd a) 0 then false else true)
  else true.

(** [np.angle]: the argument of a complex number, [arctan2(imag, real)]. *)
Definition arctan2 (y x : R) : R :=
  if Rlt_dec 0 x then atan (y / x)
  else if Rlt_dec x 0
       then (if Rle_dec 0 y then atan (y / x) + PI else atan (y / x) - PI)
       else if Rlt_dec 0 y then PI / 2
            else if Rlt_dec y 0 then - (PI / 2) else 0.

Definition angle (a : C) : R := arctan2 (snd a) (fst a).

(** [np.linalg.norm] of a real and of a complex vector. *)
Definition norm (v : list R) : R :=
  sqrt (fold_right (fun x acc => x * x + acc) 0 v).

Definition cnorm (v : list C) : R :=
  sqrt (fold_right (fun z acc => Cabs z * Cabs z + acc) 0 v).

Definition div_scalar (v : list R) (x : R) : list R :=
  List.map (fun a => a / x) v.

Definition cdiv_scalar (v : list C) (x : R) : list C :=
  List.map (fun a => Cdiv a x) v.

Definition zeros (n : nat) : list R := List.repeat 0 n.
Definition czeros (n : nat) : list C := List.repeat (RtoC 0) n.

(** [np.pad(v, (0, k), 'constant')]: a negative width is refused. *)
Definition pad_right {A} (zero : A) (v : list A) (k : Z) : result (list A) :=
  if (k <? 0)%Z
  then Raise (ValueError "index can't contain negative values")
  else Ok (v ++ List.repeat zero (Z.to_nat k)).

(** [np.repeat(v, k)]: every element k times in a row. *)
Definition np_repeat {A} (v : list A) (k : nat) : list A :=
  List.flat_map (fun a => List.repeat a k) v.

(** [np.tile(v, k)]: k copies of the vector one after the other. *)
Fixpoint tile {A} (v : list A) (k : nat) : list A :=
  match k with
  | O => []
  | S k' => v ++ tile v k'
  end.

(** [v[::k]] for a positive step k: the elements at indices 0, k, 2k, ... *)
Fixpoint stride_from {A} (skip : nat) (k : nat) (v : list A) : list A :=
  match v with
  | [] => []
  | a :: v' =>
      match skip with
      | O => a :: stride_from (Nat.pred k) k v'
      | S s => stride_from s k v'
      end
  end.

Definition stride {A} (v : list A) (k : nat) : list A := stride_from 0 k v.

(** [a += b] on 1-d arrays: b must have the length of a, or length one. *)
Definition iadd (a b : list C) : result (list C) :=
  if Nat.eqb (length b) (length a)
  then Ok (List.map (fun p => Cadd (fst p) (snd p)) (List.combine a b))
  else match b with
       | [b0] => Ok (List.map (fun x => Cadd x b0) a)
       | _ => Raise (ValueError "operands could not be broadcast together")
       end.

(** [np.dot] of two 1-d arrays: the lengths must agree. *)
Definition dot (a b : list C) : result C :=
  if Nat.eqb (length a) (length b)
  then Ok (fold_right Cadd (RtoC 0)
             (List.map (fun p => Cmul (fst p) (snd p)) (List.combine a b)))
  else Raise (ValueError "shapes not aligned").

End Np.

(** ** logging_manager.py: what makes [log_event] raise *)

Module Logging.

(** The keyword arguments the quantum modules hand to [log_event]. *)
Inductive logged :=
| LStr (s : string)
| LInt (z : Z)
| LFloat (r : R)
| LBool (b : bool)
| LInts (l : list nat)
| LDict (d : dict)
| LDicts (l : list dict)
| LArray (v : list Np.C).

(** [json.dumps] encodes strings, numbers, booleans and the lists and
    dictionaries of them, which is all a [dict] of this file can hold; it
    has no encoding for a numpy array. *)
Definition json_encodable (v : logged) : bool :=
  match v with
  | LArray _ => false
  | _ => true
  end.

Definition log_categories : list string :=
  ["system"; "quantum"; "security"; "performance"; "audit"].

Definition log_levels : list string :=
  ["DEBUG"; "INFO"; "WARNING"; "ERROR"; "CRITICAL"].

Definition log_event (category level message : string)
    (kwargs : list (string * logged)) : result unit :=
  if negb (existsb (String.eqb category) log_categories)
  then Raise (ValueError ("Invalid log category: " +:+ category))
  else if negb (existsb (String.eqb level) log_levels)
  then Raise (ValueError ("Invalid log level: " +:+ level))
  else if forallb (fun kv => json_encodable (snd kv)) kwargs
  then Ok tt
  else Raise (TypeError "Object of type ndarray is not JSON serializable").

(** [str(e)] *)
Definition exn_str (e : exn) : string :=
  match e with
  | ValueError msg => msg
  | KeyError msg => "'" +:+ msg +:+ "'"
  | UnboundLocalError msg => msg
  | TypeError msg => msg
  end.

(** [except Exception as e: self.logger.log_event("quantum", "ERROR",
    f"<prefix>{str(e)}"); raise] *)
Definition reraise {A} (prefix : string) (e : exn) : result A :=
  match log_event "quantum" "ERROR" (prefix +:+ exn_str e) [] with
  | Ok _ => Raise e
  | Raise e' => Raise e'
  end.

End Logging.

(** ** encoding_methods.py *)

Module Encoder.

Import Np Logging.
Local Open Scope R_scope.

Record EncodingConfig := {
  cfg_method : string;
  cfg_n_qubits : nat;
  cfg_error_protection : bool;
  compression_ratio : R;
  basis_states : list string
}.

(** The encoder object is determined by its qubit count: [configs] is
    written once by [__init__] and only read afterwards. *)
Definition configs (n_qubits : nat) : list (string * EncodingConfig) :=
  [ ("amplitude",
     {| cfg_method := "amplitude"; cfg_n_qubits := n_qubits;
        cfg_error_protection := true; compression_ratio := 1;
        basis_states := ["0"; "1"] |});
    ("phase",
     {| cfg_method := "phase"; cfg_n_qubits := n_qubits;
        cfg_error_protection := true; compression_ratio := 1;
        basis_states := ["+"; "-"] |});
    ("superdense",
     {| cfg_method := "superdense"; cfg_n_qubits := n_qubits / 2;
        cfg_error_protection := true; compression_ratio := 2;
        basis_states := ["00"; "01"; "10"; "11"] |}) ]%nat.

(** The dictionary returned by [encode_quantum_state]. *)
Record EncodingResult := {
  timestamp : string;
  method : string;
  state_vector : list C;
  n_qubits_used : nat;
  error_protected : bool;
  fidelity : R
}.

Definition _normalize_data (data : list R) : list R :=
  div_scalar data (norm data).

Definition _amplitude_encode (n_qubits : nat) (data : list R)
  : result (list C) :=
  let n_amplitudes := (2 ^ Z.of_nat n_qubits)%Z in
  padded_data ← pad_right 0 data (n_amplitudes - Z.of_nat (length data))%Z;
  mret (List.map RtoC (div_scalar padded_data (norm padded_data))).

Definition _phase_encode (n_qubits : nat) (data : list R)
  : result (list C) :=
  let phases :=
    List.map (fun x => Cexp (Cscale (Cscale (0, 2) PI) x)) data in
  let n_phases := (2 ^ Z.of_nat n_qubits)%Z in
  pad_right (RtoC 0) phases (n_phases - Z.of_nat (length phases))%Z.

Definition _create_bell_states (n_pairs : nat) : list (list R) :=
  [ List.map (fun x => x / sqrt 2) [1; 0; 0; 1];
    List.map (fun x => x / sqrt 2) [0; 1; 1; 0];
    List.map (fun x => x / sqrt 2) [1; 0; 0; -1];
    List.map (fun x => x / sqrt 2) [0; 1; -1; 0] ].

(** The body of [for i, value in enumerate(...)], from index i on. *)
Fixpoint superdense_loop (bell_states : list (list R)) (i : nat)
    (values : list R) (encoded : list C) : result (list C) :=
  match values with
  | [] => Ok encoded
  | value :: rest =>
      let term := List.map (fun b => RtoC (value * b))
                    (List.nth (i mod 4) bell_states []) in
      encoded' ← iadd encoded term;
      superdense_loop bell_states (S i) rest encoded'
  end.

Definition _superdense_encode (n_qubits : nat) (data : list R)
  : result (list C) :=
  let n_pairs := (n_qubits / 2)%nat in
  let bell_states := _create_bell_states n_pairs in
  let encoded := czeros (2 ^ (2 * n_pairs)) in
  encoded ← superdense_loop bell_states 0 (List.firstn n_pairs data) encoded;
  mret (cdiv_scalar encoded (cnorm encoded)).

Definition _apply_phase_flip_code (v : list C) : list C := tile v 9.
Definition _remove_phase_flip_code (v : list C) : list C := stride v 9.
Definition _apply_stabilizer_code (v : list C) : list C := tile v 7.
Definition _remove_stabilizer_code (v : list C) : list C := stride v 7.

Definition _apply_error_protection (v : list C) (method : string)
  : list C :=
  let protected :=
    if String.eqb method "amplitude" then np_repeat v 3
    else if String.eqb method "phase" then _apply_phase_flip_code v
    else _apply_stabilizer_code v in
  cdiv_scalar protected (cnorm protected).

Definition _remove_error_protection (v : list C) (method : string)
  : list C :=
  let unprotected :=
    if String.eqb method "amplitude" then stride v 3
    else if String.eqb method "phase" then _remove_phase_flip_code v
    else _remove_stabilizer_code v in
  cdiv_scalar unprotected (cnorm unprotected).

Definition _calculate_encoding_fidelity (original : list R)
    (encoded : list C) : result R :=
  d ← dot (List.map RtoC original) (List.map Cconj encoded);
  mret (Cabs d ^ 2).

(** The statements of the [try] block of [encode_quantum_state] up to
    and including the construction of [encoding_result]. *)
Definition encoding_result_of (n_qubits : nat) (now : readings)
    (data : list R) (method : string) (error_protection : bool)
  : result EncodingResult :=
  match dict_get (configs n_qubits) method with
  | None => Raise (ValueError ("Unknown encoding method: " +:+ method))
  | Some config =>
      let normalized_data := _normalize_data data in
      encoded_state ←
        (if String.eqb method "amplitude"
         then _amplitude_encode n_qubits normalized_data
         else if String.eqb method "phase"
         then _phase_encode n_qubits normalized_data
         else if String.eqb method "superdense"
         then _superdense_encode n_qubits normalized_data
         else Raise (UnboundLocalError "encoded_state"));
      let encoded_state :=
        if error_protection && cfg_error_protection config
        then _apply_error_protection encoded_state method
        else encoded_state in
      f ← _calculate_encoding_fidelity normalized_data encoded_state;
      mret {| timestamp := now 0%nat;
              method := method;
              state_vector := encoded_state;
              n_qubits_used := length encoded_state;
              error_protected := error_protection;
              fidelity := f |}
  end.

(** [**encoding_result], as [log_event] receives it. *)
Definition encoding_result_kwargs (r : EncodingResult)
  : list (string * logged) :=
  [ ("timestamp", LStr (timestamp r));
    ("method", LStr (method r));
    ("state_vector", LArray (state_vector r));
    ("n_qubits_used", LInt (Z.of_nat (n_qubits_used r)));
    ("error_protected", LBool (error_protected r));
    ("fidelity", LFloat (fidelity r)) ].

(** [encode_quantum_state]: the record is built, logged and returned; an
    exception on the way is logged and raised again. *)
Definition encode_quantum_state (n_qubits : nat) (now : readings)
    (data : list R) (method : string) (error_protection : bool)
  : result EncodingResult :=
  match encoding_result_of n_qubits now data method error_protection with
  | Raise e => reraise "Encoding failed: " e
  | Ok encoding_result =>
      match log_event "quantum" "INFO" "Quantum state encoded"
              (encoding_result_kwargs encoding_result) with
      | Raise e => reraise "Encoding failed: " e
      | Ok _ => Ok encoding_result
      end
  end.

Definition _amplitude_decode (v : list C) : list R :=
  List.map fst (List.filter Cnonzero v).

Definition _phase_decode (v : list C) : list R :=
  let phases := List.filter Cnonzero v in
  List.map (fun z => angle z / (2 * PI)) phases.

(** The loop over the four Bell states, building [decoded]. *)
Fixpoint superdense_projections (v : list C) (bell_states : list (list R))
  : result (list R) :=
  match bell_states with
  | [] => Ok []
  | bell_state :: rest =>
      d ← dot v (List.map RtoC bell_state);
      decoded ← superdense_projections v rest;
      mret (Cabs d :: decoded)
  end.

Definition _superdense_decode (n_qubits : nat) (v : list C)
  : result (list R) :=
  superdense_projections v (_create_bell_states (n_qubits / 2)).

Definition decode_quantum_state (n_qubits : nat) (now : readings)
    (encoded_state : EncodingResult) : result (list R) :=
  let method := method encoded_state in
  let state_vector := state_vector encoded_state in
  let state_vector :=
    if error_protected encoded_state
    then _remove_error_protection state_vector method
    else state_vector in
  if String.eqb method "amplitude" then Ok (_amplitude_decode state_vector)
  else if String.eqb method "phase" then Ok (_phase_decode state_vector)
  else if String.eqb method "superdense"
  then _superdense_decode n_qubits state_vector
  else Raise (UnboundLocalError "decoded_data").

End Encoder.

(** ** quantum_circuit.py: what the other components read of the manager *)

Module Circuit.

Record QuantumCircuitManager := { n_qubits : nat }.

End Circuit.

(** ** error_mitigation.py *)

Module Mitigation.

Import Circuit.
Local Open Scope R_scope.

Record ErrorModel := {
  name : string;
  rate : R;
  type : string;
  affected_qubits : list nat;
  mitigation_strategy : string
}.

Record ErrorMitigationSystem := {
  circuit_manager : QuantumCircuitManager;
  error_models : list (string * ErrorModel)
}.

Definition __init__ (circuit_manager : QuantumCircuitManager)
  : ErrorMitigationSystem :=
  {| circuit_manager := circuit_manager;
     error_models :=
       [ ("decoherence",
          {| name := "decoherence"; rate := 0.001; type := "continuous";
             affected_qubits := seq 0 (n_qubits circuit_manager);
             mitigation_strategy := "dynamical_decoupling" |});
         ("gate_error",
          {| name := "gate_error"; rate := 0.0005; type := "discrete";
             affected_qubits := seq 0 (n_qubits circuit_manager);
             mitigation_strategy := "gate_optimization" |});
         ("measurement",
          {| name := "measurement"; rate := 0.002; type := "readout";
             affected_qubits := seq 0 (n_qubits circuit_manager);
             mitigation_strategy := "readout_error_mitigation" |}) ] |}.

Definition _apply_dynamical_decoupling (circuit : dictobj)
    (error_model : ErrorModel) : dict :=
  [ ("method", PStr "dynamical_decoupling");
    ("pulse_sequence", PStr "CPMG");
    ("success", PBool true) ].

Definition _apply_gate_optimization (circuit : dictobj)
    (error_model : ErrorModel) : dict :=
  [ ("method", PStr "gate_optimization");
    ("optimization_type", PStr "pulse_shaping");
    ("success", PBool true) ].

Definition _apply_readout_mitigation (circuit : dictobj)
    (error_model : ErrorModel) : dict :=
  [ ("method", PStr "readout_mitigation");
    ("calibration", PStr "symmetric");
    ("success", PBool true) ].

Definition _apply_strategy (now : string) (circuit : dictobj)
    (error_model : ErrorModel) : dict :=
  let strategy_result :=
    [ ("model", PStr (name error_model));
      ("timestamp", PStr now);
      ("affected_qubits", PInts (affected_qubits error_model));
      ("success", PBool false) ] in
  if String.eqb (mitigation_strategy error_model) "dynamical_decoupling"
  then dict_update strategy_result
         (_apply_dynamical_decoupling circuit error_model)
  else if String.eqb (mitigation_strategy error_model) "gate_optimization"
  then dict_update strategy_result
         (_apply_gate_optimization circuit error_model)
  else if String.eqb (mitigation_strategy error_model)
            "readout_error_mitigation"
  then dict_update strategy_result
         (_apply_readout_mitigation circuit error_model)
  else strategy_result.

(** The dictionary returned by [apply_error_mitigation]. *)
Record MitigationSpec := {
  timestamp : string;
  circuit_id : Z;
  applied_strategies : list dict
}.

(** [for strategy in strategies]: t counts the clock readings made so far
    by the call, [applied] is the list built so far. *)
Fixpoint strategy_loop (self : ErrorMitigationSystem) (now : readings)
    (circuit : dictobj) (strategies : list string) (t : nat)
    (applied : list dict) : list dict :=
  match strategies with
  | [] => applied
  | strategy :: rest =>
      match dict_get (error_models self) strategy with
      | Some error_model =>
          let result := _apply_strategy (now t) circuit error_model in
          strategy_loop self now circuit rest (S t) (applied ++ [result])
      | None => strategy_loop self now circuit rest t applied
      end
  end.

Definition apply_error_mitigation (self : ErrorMitigationSystem)
    (now : readings) (circuit : dictobj) (strategies : option (list string))
  : MitigationSpec :=
  let strategies :=
    match strategies with
    | None => ["decoherence"; "gate_error"; "measurement"]
    | Some l => l
    end in
  {| timestamp := now 0%nat;
     circuit_id := py_id circuit;
     applied_strategies :=
       strategy_loop self now circuit strategies 1 [] |}.

Definition _calculate_error_rate (circuit : dictobj)
    (error_model : ErrorModel) : R :=
  rate error_model * 0.9.

End Mitigation.

(** ** memory_interface.py *)

Module Memory.

Import Circuit Mitigation Logging.
Local Open Scope R_scope.

Record MemoryState := {
  id : string;
  qubits : list nat;
  encoding : string;
  fidelity : R;
  timestamp : string;
  metadata : dict
}.

Record QuantumMemoryInterface := {
  circuit_manager : QuantumCircuitManager;
  error_mitigation : ErrorMitigationSystem;
  memory_states : gmap string MemoryState
}.

Definition _direct_encoding (data : list R) : list R := data.
Definition _compressed_encoding (data : list R) : list R := data.
Definition _error_protected_encoding (data : list R) : list R := data.

Definition encoding_schemes : list (string * (list R -> list R)) :=
  [ ("direct", _direct_encoding);
    ("compressed", _compressed_encoding);
    ("error_protected", _error_protected_encoding) ].

Definition __init__ (circuit_manager : QuantumCircuitManager)
    (error_mitigation : ErrorMitigationSystem) : QuantumMemoryInterface :=
  {| circuit_manager := circuit_manager;
     error_mitigation := error_mitigation;
     memory_states := ∅ |}.

(** [f"state_{timestamp}_{len(self.memory_states)}"] *)
Definition state_id_of (stamp : string) (count : nat) : string :=
  "state_" +:+ stamp +:+ "_" +:+ pretty count.

Definition _generate_state_id (self : QuantumMemoryInterface)
    (now : string) : string :=
  state_id_of now (size (memory_states self)).

(** [**vars(memory_state)], as [log_event] receives it. *)
Definition vars_memory_state (st : MemoryState) : list (string * logged) :=
  [ ("id", LStr (id st));
    ("qubits", LInts (qubits st));
    ("encoding", LStr (encoding st));
    ("fidelity", LFloat (fidelity st));
    ("timestamp", LStr (timestamp st));
    ("metadata", LDict (metadata st)) ].

Definition _allocate_qubits (self : QuantumMemoryInterface)
    (encoded_state : list R) : list nat :=
  let n_required := length encoded_state in
  let available_qubits := seq 0 (n_qubits (circuit_manager self)) in
  firstn n_required available_qubits.

(** [store_state]: the outcome of the call and the interface after it.
    [now 0] is the reading that enters the state ID, [now 1] the one kept
    in the MemoryState, the later ones are made by the mitigation system;
    [fresh] is the address of the dictionary handed to it.  The state is
    persisted before the call is logged, so an exception of the log call
    would leave it in the map. *)
Definition store_state (self : QuantumMemoryInterface) (now : readings)
    (fresh : Z) (data : list R) (encoding_scheme : option string)
    (metadata : option dict) : result string * QuantumMemoryInterface :=
  let encoding_scheme := default "error_protected" encoding_scheme in
  let metadata := default [] metadata in
  let state_id := _generate_state_id self (now 0%nat) in
  match dict_get encoding_schemes encoding_scheme with
  | None =>
      (reraise "State storage failed: "
         (ValueError ("Unknown encoding scheme: " +:+ encoding_scheme)),
       self)
  | Some encode =>
      let encoded_state := encode data in
      let memory_state :=
        {| id := state_id;
           qubits := _allocate_qubits self encoded_state;
           encoding := encoding_scheme;
           fidelity := 1;
           timestamp := now 1%nat;
           metadata := metadata |} in
      let _ :=
        apply_error_mitigation (error_mitigation self) (later 2 now)
          {| py_id := fresh;
             py_items := [ ("type", PStr "memory");
                           ("state_id", PStr state_id);
                           ("qubits", PInts (qubits memory_state)) ] |}
          None in
      let stored :=
        {| circuit_manager := circuit_manager self;
           error_mitigation := error_mitigation self;
           memory_states :=
             <[state_id := memory_state]> (memory_states self) |} in
      match log_event "quantum" "INFO"
              ("State stored with ID: " +:+ state_id)
              (vars_memory_state memory_state) with
      | Ok _ => (Ok state_id, stored)
      | Raise e => (reraise "State storage failed: " e, stored)
      end
  end.

Definition _decode_state (memory_state : MemoryState) : list R :=
  Np.zeros (length (qubits memory_state)).

Definition retrieve_state (self : QuantumMemoryInterface)
    (state_id : string) : result (list R) :=
  match memory_states self !! state_id with
  | None => Raise (KeyError ("State not found: " +:+ state_id))
  | Some memory_state => Ok (_decode_state memory_state)
  end.

Definition _calculate_storage_time (stored_timestamp : string) : R := 0.1.

(** One iteration of the loop of [monitor_state_fidelity] on a state. *)
Definition decay (state : MemoryState) : MemoryState :=
  let time_stored := _calculate_storage_time (timestamp state) in
  {| id := id state;
     qubits := qubits state;
     encoding := encoding state;
     fidelity := fidelity state * exp (- 0.1 * time_stored);
     timestamp := timestamp state;
     metadata := metadata state |}.

(** [monitor_state_fidelity]: the dictionary it returns and the interface
    after it; the states are updated in place. *)
Definition monitor_state_fidelity (self : QuantumMemoryInterface)
  : gmap string R * QuantumMemoryInterface :=
  let states := decay <$> memory_states self in
  (fidelity <$> states,
   {| circuit_manager := circuit_manager self;
      error_mitigation := error_mitigation self;
      memory_states := states |}).

(** *** Histories of calls on one interface *)

Inductive call :=
| Store (now : readings) (fresh : Z) (data : list R)
    (encoding_scheme : option string) (metadata : option dict)
| Retrieve (state_id : string)
| Monitor.

(** The interface after a call, whether the call returned or raised. *)
Definition after (self : QuantumMemoryInterface) (c : call)
  : QuantumMemoryInterface :=
  match c with
  | Store now fresh data encoding_scheme metadata =>
      snd (store_state self now fresh data encoding_scheme metadata)
  | Retrieve _ => self
  | Monitor => snd (monitor_state_fidelity self)
  end.

Definition run (self : QuantumMemoryInterface) (calls : list call)
  : QuantumMemoryInterface :=
  fold_left after calls self.

(** The state IDs returned by the store calls of a history, oldest first. *)
Fixpoint issued (self : QuantumMemoryInterface) (calls : list call)
  : list string :=
  match calls with
  | [] => []
  | c :: rest =>
      match c with
      | Store now fresh data encoding_scheme metadata =>
          match fst (store_state self now fresh data encoding_scheme
                       metadata) with
          | Ok state_id => state_id :: issued (after self c) rest
          | Raise _ => issued (after self c) rest
          end
      | _ => issued (after self c) rest
      end
  end.

End Memory.

(** ** error_mitigation.py: the analysis of error rates *)

Module Analysis.

Import Circuit Mitigation.
Local Open Scope R_scope.

(** One entry of ["error_rates"]. *)
Record RateReport := {
  current_rate : R;
  threshold : R;
  status : string
}.

(** The dictionary returned by [analyze_error_rates]. *)
Record ErrorAnalysis := {
  timestamp : string;
  circuit_id : Z;
  error_rates : list (string * RateReport)
}.

(** The body of [for model_name, model in self.error_models.items()]. *)
Definition rate_report (circuit : dictobj) (model : ErrorModel) : RateReport :=
  let current := _calculate_error_rate circuit model in
  {| current_rate := current;
     threshold := rate model;
     status := if Rgt_dec current (rate model)
               then "needs_mitigation" else "acceptable" |}.

Definition analyze_error_rates (self : ErrorMitigationSystem)
    (now : readings) (circuit : dictobj) : ErrorAnalysis :=
  {| timestamp := now 0%nat;
     circuit_id := py_id circuit;
     error_rates :=
       fold_left (fun acc kv => dict_set acc (fst kv)
                                  (rate_report circuit (snd kv)))
         (error_models self) [] |}.

End Analysis.

(** ** quantum_circuit.py: creation and validation of circuits *)

Module CircuitManager.

Import Circuit.
Local Open Scope R_scope.

(** The values of a circuit dictionary; a circuit has nested dictionaries. *)
#[warnings="-register-all"]
Inductive value :=
| VNone
| VBool (b : bool)
| VInt (z : Z)
| VFloat (r : R)
| VStr (s : string)
| VTuple (l : list Z)
| VDict (d : list (string * value)).

(** A circuit dictionary: its address and its items. *)
Record circuitobj := { c_id : Z; c_items : list (string * value) }.

(** A call returns, or raises the AttributeError of [x.get] on a value
    that is no dictionary. *)
Inductive outcome (A : Type) :=
| Return (a : A)
| AttributeError (msg : string).
Arguments Return {A} a.
Arguments AttributeError {A} msg.

Definition circuit_configs : list (string * list (string * value)) :=
  [ ("learning",
     [ ("layers", VInt 3); ("connectivity", VStr "all-to-all");
       ("error_threshold", VFloat 0.001) ]);
    ("memory",
     [ ("layers", VInt 2); ("connectivity", VStr "nearest-neighbor");
       ("error_threshold", VFloat 0.0005) ]);
    ("processing",
     [ ("layers", VInt 4); ("connectivity", VStr "custom");
       ("error_threshold", VFloat 0.002) ]) ].

(** [create_learning_circuit]: the items of the dictionary it returns;
    [input_shape] is the shape of the input array. *)
Definition create_learning_circuit (self : QuantumCircuitManager)
    (now : readings) (input_shape : list Z) (optimization_level : Z)
  : list (string * value) :=
  [ ("timestamp", VStr (now 0%nat));
    ("type", VStr "learning");
    ("n_qubits", VInt (Z.of_nat (n_qubits self)));
    ("input_shape", VTuple input_shape);
    ("config", VDict (default [] (dict_get circuit_configs "learning")));
    ("optimization",
     VDict [ ("level", VInt optimization_level);
             ("method", VStr "quantum_enhanced") ]) ].

(** [v == n] for an integer n: Python compares numbers by value, a bool
    is the integer 0 or 1, and the other values differ from every integer. *)
Definition eq_int (v : value) (n : Z) : bool :=
  match v with
  | VInt z => Z.eqb z n
  | VBool b => Z.eqb (if b then 1 else 0)%Z n
  | VFloat r => if Req_dec_T r (IZR n) then true else false
  | _ => false
  end.

(** [v in l] for a list of strings. *)
Definition in_strings (v : value) (l : list string) : bool :=
  match v with
  | VStr s => existsb (String.eqb s) l
  | _ => false
  end.

(** [circuit.get("config", {})], ready for a [.get] of its own. *)
Definition config_of (circuit : circuitobj)
  : outcome (list (string * value)) :=
  match dict_get (c_items circuit) "config" with
  | None => Return []
  | Some (VDict d) => Return d
  | Some _ => AttributeError "object has no attribute 'get'"
  end.

Definition _validate_qubit_count (self : QuantumCircuitManager)
    (circuit : circuitobj) : bool :=
  eq_int (default (VInt 0) (dict_get (c_items circuit) "n_qubits"))
    (Z.of_nat (n_qubits self)).

Definition _validate_connectivity (self : QuantumCircuitManager)
    (circuit : circuitobj) : outcome bool :=
  match config_of circuit with
  | AttributeError msg => AttributeError msg
  | Return config =>
      Return (in_strings (default VNone (dict_get config "connectivity"))
                ["all-to-all"; "nearest-neighbor"; "custom"])
  end.

Definition _validate_error_rates (self : QuantumCircuitManager)
    (circuit : circuitobj) : outcome bool :=
  match config_of circuit with
  | AttributeError msg => AttributeError msg
  | Return config =>
      let threshold :=
        default (VFloat 0.01) (dict_get config "error_threshold") in
      Return true
  end.

(** The dictionary returned by [validate_circuit]. *)
Record ValidationResults := {
  timestamp : string;
  circuit_id : Z;
  checks : list (string * bool);
  valid : bool
}.

Definition validate_circuit (self : QuantumCircuitManager) (now : readings)
    (circuit : circuitobj) : outcome ValidationResults :=
  let qubit_count := _validate_qubit_count self circuit in
  match _validate_connectivity self circuit with
  | AttributeError msg => AttributeError msg
  | Return connectivity =>
      match _validate_error_rates self circuit with
      | AttributeError msg => AttributeError msg
      | Return rates =>
          let checks := [ ("qubit_count", qubit_count);
                          ("connectivity", connectivity);
                          ("error_rates", rates) ] in
          Return {| timestamp := now 0%nat;
                    circuit_id := c_id circuit;
                    checks := checks;
                    valid := forallb snd checks |}
      end
  end.

End CircuitManager.

(** ** Vocabulary of the statements *)

(** A character occurs in a string. *)
Fixpoint occurs (c : ascii) (s : string) : Prop :=
  match s with
  | EmptyString => False
  | String c' s' => c' = c \/ occurs c s'
  end.

(** The outcome of a call that returns an array, up to the values: the
    exception, or the length of the array. *)
Definition shape {A} (r : result (list A)) : result nat :=
  match r with
  | Ok v => Ok (length v)
  | Raise e => Raise e
  end.

(** The value of the key "model" in every result of a mitigation report. *)
Definition tags (report : Mitigation.MitigationSpec) : list (option obj) :=
  List.map (fun r => dict_get r "model") (Mitigation.applied_strategies report).

(** A strategy name is a key of the error models of the system. *)
Definition known (ems : Mitigation.ErrorMitigationSystem) (s : string) : bool :=
  match dict_get (Mitigation.error_models ems) s with
  | Some _ => true
  | None => false
  end.

(** Every key of the state map was generated with a count below the
    current size of the map. *)
Definition counted (self : Memory.QuantumMemoryInterface) : Prop :=
  forall k st, Memory.memory_states self !! k = Some st ->
    exists stamp n,
      k = Memory.state_id_of stamp n /\ n < size (Memory.memory_states self).

(** Fidelities stay positive and at most one. *)
Definition fidelity_ok (st : Memory.MemoryState) : Prop :=
  (0 < Memory.fidelity st <= 1)%R.

(** An interface with two qubits and a fixed clock, for the examples. *)
Definition small : Memory.QuantumMemoryInterface :=
  Memory.__init__ {| Circuit.n_qubits := 2 |}
    (Mitigation.__init__ {| Circuit.n_qubits := 2 |}).

Definition noon : readings := fun _ => "UTC - 2025-05-31 12:00:00".

(** The input vector of tests/quantum/test_encoding_methods.py. *)
Definition test_data : list R := [0.1; 0.2; 0.3; 0.4]%R.

(** What every held state looks like. *)
Definition well_formed (capacity : nat) (k : string) (st : Memory.MemoryState)
  : Prop :=
  Memory.id st = k /\
  (exists n, n <= capacity /\ Memory.qubits st = seq 0 n) /\
  is_Some (dict_get Memory.encoding_schemes (Memory.encoding st)).

(** * Properties *)

(** ** State identifiers *)

Section StateIds.

Lemma occurs_append c a b : occurs c (a +:+ String c b).
Proof. induction a as [|x a IH]; simpl; auto. Qed.

Lemma digit_not_underscore n : pretty_N_char n <> "_"%char.
Proof. unfold pretty_N_char. repeat case_match; discriminate. Qed.

Lemma pretty_N_go_no_underscore (x : N) (s : string) :
  ~ occurs "_" s -> ~ occurs "_" (pretty_N_go x s).
Proof.
  revert s. induction (N.lt_wf_0 x) as [x _ IH]. intros s Hs.
  destruct (decide (x = 0%N)) as [->|Hx].
  - now rewrite pretty_N_go_0.
  - rewrite pretty_N_go_step by lia.
    apply IH; [apply N.div_lt; lia|].
    simpl. intros [Hc|Hc]; [now apply digit_not_underscore in Hc | auto].
Qed.

Lemma pretty_nat_no_underscore (n : nat) : ~ occurs "_" (pretty n).
Proof.
  unfold pretty, pretty_nat, pretty, pretty_N.
  case_decide.
  - simpl. intros [H0|[]]. discriminate.
  - apply pretty_N_go_no_underscore. simpl. tauto.
Qed.

(** The text after the last underscore determines itself. *)
Lemma suffix_after_underscore (a b d e : string) :
  ~ occurs "_" d -> ~ occurs "_" e ->
  a +:+ String "_" d = b +:+ String "_" e -> d = e.
Proof.
  intros Hd He. revert b.
  induction a as [|x a IH]; intros [|y b]; simpl; intros H.
  - now inversion H.
  - inversion H; subst. destruct Hd. apply occurs_append.
  - inversion H; subst. destruct He. apply occurs_append.
  - inversion H; subst. eauto.
Qed.

Lemma state_id_of_count (s1 s2 : string) (k1 k2 : nat) :
  Memory.state_id_of s1 k1 = Memory.state_id_of s2 k2 -> k1 = k2.
Proof.
  unfold Memory.state_id_of. simpl. intros H.
  inversion H as [H'].
  apply suffix_after_underscore in H';
    auto using pretty_nat_no_underscore.
  now apply (inj pretty) in H'.
Qed.

End StateIds.

(** ** The memory interface *)

Section MemoryFacts.

Import Circuit Memory.

Implicit Types (self : QuantumMemoryInterface) (calls : list call).

Lemma counted_fresh self stamp :
  counted self -> memory_states self !! _generate_state_id self stamp = None.
Proof.
  intros Hc. destruct (memory_states self !! _) as [st|] eqn:E; [|done].
  apply Hc in E as (stamp' & n & E & Hn).
  apply state_id_of_count in E. lia.
Qed.

(** What a store call with a registered scheme does. *)
Lemma store_state_known self now fresh data encoding_scheme metadata encode :
  dict_get encoding_schemes (default "error_protected" encoding_scheme)
    = Some encode ->
  store_state self now fresh data encoding_scheme metadata =
    (Ok (_generate_state_id self (now 0)),
     {| circuit_manager := circuit_manager self;
        error_mitigation := error_mitigation self;
        memory_states :=
          <[ _generate_state_id self (now 0) :=
             {| id := _generate_state_id self (now 0);
                qubits := _allocate_qubits self (encode data);
                encoding := default "error_protected" encoding_scheme;
                fidelity := 1;
                timestamp := now 1;
                metadata := default [] metadata |} ]>
            (memory_states self) |}).
Proof. intros H. unfold store_state. now rewrite H. Qed.

Lemma store_state_unknown self now fresh data encoding_scheme metadata :
  dict_get encoding_schemes (default "error_protected" encoding_scheme)
    = None ->
  store_state self now fresh data encoding_scheme metadata =
    (Raise (ValueError ("Unknown encoding scheme: "
                        +:+ default "error_protected" encoding_scheme)),
     self).
Proof. intros H. unfold store_state. now rewrite H. Qed.

Lemma counted_after self c : counted self -> counted (after self c).
Proof.
  intros Hc. destruct c as [now fresh data scheme md| |]; simpl; [|done|].
  - destruct (dict_get encoding_schemes (default "error_protected" scheme))
      as [encode|] eqn:E.
    + rewrite (store_state_known _ _ _ _ _ _ _ E). simpl.
      pose proof (counted_fresh self (now 0) Hc) as Hfresh.
      intros k st. cbn [memory_states]. rewrite map_size_insert_None by done.
      destruct (decide (_generate_state_id self (now 0) = k)) as [<-|Hne].
      * intros _. exists (now 0), (size (memory_states self)).
        split; [done | lia].
      * rewrite lookup_insert_ne by done. intros Hk.
        apply Hc in Hk as (stamp & n & -> & Hn). exists stamp, n.
        split; [done | lia].
    + now rewrite (store_state_unknown _ _ _ _ _ _ E).
  - intros k st. cbn [memory_states]. rewrite lookup_fmap, map_size_fmap.
    destruct (memory_states self !! k) as [st'|] eqn:Ek; [|done].
    intros _. eauto.
Qed.

Lemma counted_init qcm ems : counted (__init__ qcm ems).
Proof. intros k st. simpl. now rewrite lookup_empty. Qed.

Lemma counted_run self calls : counted self -> counted (run self calls).
Proof.
  revert self. induction calls as [|c calls IH]; intros self Hc; [done|].
  simpl. apply IH. now apply counted_after.
Qed.

(** A call never removes a key. *)
Lemma after_keeps_keys self c k :
  memory_states (after self c) !! k = None -> memory_states self !! k = None.
Proof.
  destruct c as [now fresh data scheme md| |]; simpl; [|done|].
  - unfold store_state.
    destruct (dict_get encoding_schemes _); simpl; [|done].
    intros H. apply lookup_insert_None in H. tauto.
  - rewrite lookup_fmap. now destruct (memory_states self !! k).
Qed.

Lemma issued_fresh self calls :
  counted self ->
  NoDup (issued self calls) /\
  forall k, k ∈ issued self calls -> memory_states self !! k = None.
Proof.
  revert self. induction calls as [|c calls IH]; intros self Hc.
  { split; [constructor | intros k Hk; inversion Hk]. }
  pose proof (counted_after self c Hc) as Hc'.
  destruct (IH _ Hc') as [Hnd Hnew].
  assert (forall k, k ∈ issued (after self c) calls ->
                    memory_states self !! k = None) as Hold.
  { intros k Hk. eapply after_keeps_keys. eauto. }
  destruct c as [now fresh data scheme md| |]; [|by split..].
  cbn [issued].
  destruct (dict_get encoding_schemes (default "error_protected" scheme))
    as [encode|] eqn:E.
  - pose proof (store_state_known self now fresh data scheme md encode E)
      as Hs.
    rewrite Hs. cbn [fst].
    split.
    + constructor; [|done]. intros Hin. apply Hnew in Hin.
      cbn [after] in Hin. rewrite Hs in Hin. cbn in Hin.
      now rewrite lookup_insert_eq in Hin.
    + intros k Hk. apply elem_of_cons in Hk as [->|Hk]; [|auto].
      now apply counted_fresh.
  - rewrite (store_state_unknown _ _ _ _ _ _ E). cbn [fst]. by split.
Qed.

Lemma decay_factor : (0 < exp (- 0.1 * _calculate_storage_time "") < 1)%R.
Proof.
  unfold _calculate_storage_time. split; [apply exp_pos|].
  rewrite <- exp_0. apply exp_increasing. lra.
Qed.

Lemma decay_fidelity st :
  fidelity (decay st) = (fidelity st * exp (- 0.1 * 0.1))%R.
Proof. reflexivity. Qed.

Lemma decay_ok st : fidelity_ok st -> fidelity_ok (decay st).
Proof.
  unfold fidelity_ok. rewrite decay_fidelity.
  pose proof decay_factor as Hd. unfold _calculate_storage_time in Hd.
  intros H. split; [apply Rmult_lt_0_compat; lra | nra].
Qed.

(** A monitor call lowers every fidelity it finds. *)
Lemma decay_strict st :
  fidelity_ok st -> (fidelity (decay st) < fidelity st)%R.
Proof.
  unfold fidelity_ok. rewrite decay_fidelity.
  pose proof decay_factor as Hd. unfold _calculate_storage_time in Hd.
  intros H. nra.
Qed.

Lemma fidelity_ok_after self c :
  map_Forall (fun _ => fidelity_ok) (memory_states self) ->
  map_Forall (fun _ => fidelity_ok) (memory_states (after self c)).
Proof.
  intros H. destruct c as [now fresh data scheme md| |]; simpl; [|done|].
  - unfold store_state.
    destruct (dict_get encoding_schemes _); simpl; [|done].
    apply map_Forall_insert_2; [|done].
    unfold fidelity_ok. simpl. lra.
  - apply map_Forall_fmap. eapply map_Forall_impl; [exact H|].
    intros k st. apply decay_ok.
Qed.

Lemma fidelity_ok_run self calls :
  map_Forall (fun _ => fidelity_ok) (memory_states self) ->
  map_Forall (fun _ => fidelity_ok) (memory_states (run self calls)).
Proof.
  revert self. induction calls as [|c calls IH]; intros self H; [done|].
  simpl. apply IH. now apply fidelity_ok_after.
Qed.

End MemoryFacts.

Section MemoryClaims.

Import Circuit Memory.

Implicit Types (self : QuantumMemoryInterface) (calls : list call).




(** C2: in every state an interface reaches from its construction by store,
    retrieve and monitor calls, every MemoryState it holds has its fidelity
    within [0,1]. *)
Theorem fidelity_in_unit_interval qcm ems calls :
  map_Forall (fun _ st => (0 <= fidelity st <= 1)%R)
    (memory_states (run (__init__ qcm ems) calls)).
Proof.
  eapply map_Forall_impl.
  - apply fidelity_ok_run. simpl. apply map_Forall_empty.
  - intros k st [H0 H1]. split; [lra | done].
Qed.

(** The invariant is not about empty maps only: a stored and twice
    monitored state is held with a fidelity below one. *)
Example fidelity_after_two_monitors :
  fidelity <$>
    memory_states
      (run small [Store noon 7 [1]%R None None; Monitor; Monitor])
    !! "state_UTC - 2025-05-31 12:00:00_0"
  = Some (1 * exp (- 0.1 * 0.1) * exp (- 0.1 * 0.1))%R.
Proof. reflexivity. Qed.

(** C3 on the code: a vector stored under the pass-through scheme "direct"
    is retrieved as a vector of zeros. *)
Lemma retrieve_returns_zeros :
  let out := store_state small noon 7 [1; 2]%R (Some "direct") None in
  fst out = Ok "state_UTC - 2025-05-31 12:00:00_0" /\
  retrieve_state (snd out) "state_UTC - 2025-05-31 12:00:00_0"
    = Ok [0; 0]%R /\
  [0; 0]%R <> [1; 2]%R.
Proof.
  split; [reflexivity | split; [reflexivity |]].
  intros H. inversion H. lra.
Qed.

(** Whatever was stored, [retrieve_state] answers with zeros, one per
    allocated qubit. *)
Lemma retrieve_state_zeros self state_id st :
  memory_states self !! state_id = Some st ->
  retrieve_state self state_id = Ok (Np.zeros (length (qubits st))).
Proof. intros H. unfold retrieve_state. now rewrite H. Qed.

(** C4 on the code: a monitor call multiplies every fidelity by
    exp(-0.1 * 0.1); the call reads no clock, so the factor is the same
    however long the state has been stored, and differs from
    exp(-0.1 * dt) for an elapsed time dt of 60 seconds. *)
Lemma monitor_ignores_elapsed_time :
  let key := "state_UTC - 2025-05-31 12:00:00_0" in
  let stored := after small (Store noon 7 [1]%R None None) in
  let first := after stored Monitor in
  let second := after first Monitor in
  exists f_old f_new,
    fidelity <$> memory_states first !! key = Some f_old /\
    fidelity <$> memory_states second !! key = Some f_new /\
    f_new = (f_old * exp (- 0.1 * 0.1))%R /\
    f_new <> (f_old * exp (- 0.1 * 60))%R.
Proof.
  exists (1 * exp (- 0.1 * 0.1))%R, (1 * exp (- 0.1 * 0.1) * exp (- 0.1 * 0.1))%R.
  split; [reflexivity | split; [reflexivity | split; [reflexivity|]]].
  assert (exp (- 0.1 * 60) < exp (- 0.1 * 0.1))%R as Hlt
    by (apply exp_increasing; lra).
  pose proof (exp_pos (- 0.1 * 0.1)) as Hp.
  assert (0 < exp (- 0.1 * 0.1) * (exp (- 0.1 * 0.1) - exp (- 0.1 * 60)))%R
    as Hprod by (apply Rmult_lt_0_compat; lra).
  intros H. lra.
Qed.

(** The decay of one monitor call, for every state held. *)
Lemma monitor_state_fidelity_decay self state_id st :
  memory_states self !! state_id = Some st ->
  fst (monitor_state_fidelity self) !! state_id
    = Some (fidelity st * exp (- 0.1 * 0.1))%R.
Proof.
  intros H. unfold monitor_state_fidelity. cbn [fst].
  now rewrite !lookup_fmap, H.
Qed.

(** C8: the state IDs returned by the store calls of any history of an
    interface are pairwise distinct; and two successive stores of the same
    data, at any point of a history, return two distinct IDs. *)
Theorem state_ids_unique qcm ems calls :
  NoDup (issued (__init__ qcm ems) calls) /\
  forall now1 fresh1 now2 fresh2 data metadata,
    let self := run (__init__ qcm ems) calls in
    let out1 := store_state self now1 fresh1 data None metadata in
    let out2 := store_state (snd out1) now2 fresh2 data None metadata in
    exists id1 id2,
      fst out1 = Ok id1 /\ fst out2 = Ok id2 /\ id1 <> id2.
Proof.
  split.
  - apply issued_fresh, counted_init.
  - intros now1 fresh1 now2 fresh2 data metadata self out1 out2.
    pose proof (counted_run _ calls (counted_init qcm ems)) as Hc.
    fold self in Hc.
    destruct (issued_fresh self
                [Store now1 fresh1 data None metadata;
                 Store now2 fresh2 data None metadata] Hc) as [Hnd _].
    cbn [issued after] in Hnd. fold out1 in Hnd. fold out2 in Hnd.
    assert (exists id1, fst out1 = Ok id1) as [id1 E1] by (eexists; reflexivity).
    assert (exists id2, fst out2 = Ok id2) as [id2 E2] by (eexists; reflexivity).
    rewrite E1, E2 in Hnd. exists id1, id2. split; [done | split; [done|]].
    apply NoDup_cons in Hnd as [Hnotin _]. intros ->. apply Hnotin. left.
Qed.

(** C10: a store under a scheme name that is not registered raises, and
    the interface after the call is the interface before it: nothing is
    persisted and no stored state is touched. *)
Theorem store_state_unknown_scheme
    self now fresh data encoding_scheme metadata :
  dict_get encoding_schemes encoding_scheme = None ->
  exists e,
    store_state self now fresh data (Some encoding_scheme) metadata
      = (Raise e, self).
Proof. intros E. eexists. now apply store_state_unknown. Qed.

Lemma store_state_unknown_scheme_witness :
  exists e,
    store_state (after small (Store noon 7 [1]%R None None)) noon 8 [2]%R
      (Some "holographic") None
    = (Raise e, after small (Store noon 7 [1]%R None None)).
Proof.
  apply (store_state_unknown_scheme
           (after small (Store noon 7 [1]%R None None)) noon 8 [2]%R
           "holographic" None).
  reflexivity.
Defined.

End MemoryClaims.

(** ** The error-mitigation system *)

Section MitigationClaims.

Import Circuit Mitigation.

Implicit Types (self : ErrorMitigationSystem) (strategies : list string).

Lemma _apply_strategy_model now circuit error_model :
  dict_get (_apply_strategy now circuit error_model) "model"
    = Some (PStr (name error_model)).
Proof.
  unfold _apply_strategy.
  repeat (destruct (String.eqb (mitigation_strategy error_model) _));
    reflexivity.
Qed.

(** The results the loop appends: one for every name, in order, that is
    a key of the error models, labelled with the name of that model. *)
Lemma strategy_loop_models self now circuit strategies t applied :
  List.map (fun r => dict_get r "model")
    (strategy_loop self now circuit strategies t applied)
  = List.map (fun r => dict_get r "model") applied ++
    omap (fun s => (fun m => Some (PStr (name m)))
                     <$> dict_get (error_models self) s) strategies.
Proof.
  revert t applied.
  induction strategies as [|s strategies IH]; intros t applied; simpl.
  - now rewrite app_nil_r.
  - destruct (dict_get (error_models self) s) as [m|]; simpl.
    + rewrite IH, map_app. simpl.
      rewrite _apply_strategy_model, <- app_assoc. reflexivity.
    + apply IH.
Qed.

(** The keys of the three error models are the names of the models. *)
Lemma __init___names qcm s m :
  dict_get (error_models (__init__ qcm)) s = Some m -> name m = s.
Proof.
  cbn [error_models __init__ dict_get].
  destruct (String.eqb_spec "decoherence" s) as [<-|_];
    [intros [= <-]; reflexivity|].
  destruct (String.eqb_spec "gate_error" s) as [<-|_];
    [intros [= <-]; reflexivity|].
  destruct (String.eqb_spec "measurement" s) as [<-|_];
    [intros [= <-]; reflexivity|].
  discriminate.
Qed.

(** C9: for an explicit list of strategies the report holds one result for
    every list entry that names an error model, in the order of the list,
    each with the name of the model under "model"; the other entries
    leave no trace and no call raises.  For the list with the single entry
    "decoherence" the report holds the single result of that model. *)
Theorem apply_error_mitigation_strategies qcm now circuit strategies :
  tags (apply_error_mitigation (__init__ qcm) now circuit (Some strategies))
    = List.map (fun s => Some (PStr s))
        (List.filter (known (__init__ qcm)) strategies) /\
  tags (apply_error_mitigation (__init__ qcm) now circuit
          (Some ["decoherence"]))
    = [Some (PStr "decoherence")].
Proof.
  split; [|reflexivity].
  unfold tags, apply_error_mitigation. cbn [applied_strategies].
  rewrite strategy_loop_models. cbn [List.map app].
  induction strategies as [|s strategies IH]; [reflexivity|].
  cbn [omap list_omap List.filter]. unfold known at 1.
  destruct (dict_get (error_models (__init__ qcm)) s) as [m|] eqn:E.
  - cbn [fmap option_fmap option_map List.map].
    rewrite (__init___names _ _ _ E). now f_equal.
  - exact IH.
Qed.

(** With the default list every model is applied once. *)
Example apply_error_mitigation_default qcm now circuit :
  tags (apply_error_mitigation (__init__ qcm) now circuit None)
  = [Some (PStr "decoherence"); Some (PStr "gate_error");
     Some (PStr "measurement")].
Proof. reflexivity. Qed.

End MitigationClaims.

(** ** The encoder *)

Section EncoderFacts.

Import Np Encoder.

Lemma length_div_scalar v x : length (div_scalar v x) = length v.
Proof. apply length_map. Qed.

Lemma length_cdiv_scalar v x : length (cdiv_scalar v x) = length v.
Proof. apply length_map. Qed.

Lemma length_np_repeat {A} (v : list A) k :
  length (np_repeat v k) = length v * k.
Proof.
  unfold np_repeat. induction v as [|a v IH]; simpl; [reflexivity|].
  rewrite length_app, repeat_length, IH. lia.
Qed.

Lemma length_tile {A} (v : list A) k : length (tile v k) = k * length v.
Proof.
  induction k as [|k IH]; simpl; [reflexivity|].
  rewrite length_app, IH. lia.
Qed.

Lemma length__normalize_data data :
  length (_normalize_data data) = length data.
Proof. apply length_div_scalar. Qed.

(** The shape of [np.pad] depends on the length and the width alone. *)
Lemma pad_right_shape {A} (zero : A) v k :
  shape (pad_right zero v k) =
  if (k <? 0)%Z
  then Raise (ValueError "index can't contain negative values")
  else Ok (length v + Z.to_nat k).
Proof.
  unfold pad_right. destruct (k <? 0)%Z; simpl; [reflexivity|].
  now rewrite length_app, repeat_length.
Qed.

Lemma _amplitude_encode_shape n_qubits data :
  shape (_amplitude_encode n_qubits data) =
  shape (pad_right 0%R data (2 ^ Z.of_nat n_qubits - Z.of_nat (length data))).
Proof.
  unfold _amplitude_encode.
  destruct (pad_right _ _ _) as [v|e]; simpl; [|reflexivity].
  now rewrite length_map, length_div_scalar.
Qed.





Lemma _calculate_encoding_fidelity_raised original encoded :
  raised (_calculate_encoding_fidelity original encoded) =
  if Nat.eqb (length original) (length encoded)
  then None else Some (ValueError "shapes not aligned").
Proof.
  unfold _calculate_encoding_fidelity, dot. rewrite !length_map.
  now destruct (Nat.eqb _ _).
Qed.

(** The handler of an [except] block logs a string and raises again. *)
Lemma reraise_raises {A} (prefix : string) (e : exn) :
  @Logging.reraise A prefix e = Raise e.
Proof. reflexivity. Qed.

(** [encode_quantum_state] ends with the exception of its [try] block or,
    when the record has been built, with the one of logging the record. *)
Lemma encode_quantum_state_outcome n_qubits now data method error_protection :
  encode_quantum_state n_qubits now data method error_protection =
  Raise (match encoding_result_of n_qubits now data method
                 error_protection with
         | Ok _ => TypeError "Object of type ndarray is not JSON serializable"
         | Raise e => e
         end).
Proof.
  unfold encode_quantum_state.
  destruct (encoding_result_of _ _ _ _ _); reflexivity.
Qed.


End EncoderFacts.

(** ** The phase pipeline on real numbers *)

Section PhasePipeline.

Import Np Encoder.
Local Open Scope R_scope.

Lemma sum_squares_nonneg (v : list C) :
  0 <= fold_right (fun z acc => Cabs z * Cabs z + acc) 0 v.
Proof.
  induction v as [|z v IH]; simpl; [lra|].
  pose proof (Rle_0_sqr (Cabs z)) as Hz. unfold Rsqr in Hz. lra.
Qed.

Lemma cnorm_cons_pos (z : C) (v : list C) :
  0 < Cabs z -> 0 < cnorm (z :: v).
Proof.
  intros Hz. unfold cnorm. apply sqrt_lt_R0. simpl.
  pose proof (sum_squares_nonneg v).
  pose proof (Rmult_lt_0_compat _ _ Hz Hz). lra.
Qed.

Lemma Cabs_pos_fst (z : C) : 0 < fst z -> 0 < Cabs z.
Proof.
  intros Hz. unfold Cabs. apply sqrt_lt_R0.
  pose proof (Rmult_lt_0_compat _ _ Hz Hz).
  pose proof (Rle_0_sqr (snd z)) as Hs. unfold Rsqr in Hs. lra.
Qed.

(** [np.angle] recovers an angle of the right half plane. *)
Lemma arctan2_polar (a theta : R) :
  0 < a -> - (PI / 2) < theta < PI / 2 ->
  arctan2 (a * sin theta) (a * cos theta) = theta.
Proof.
  intros Ha Ht. unfold arctan2.
  pose proof (cos_gt_0 theta (proj1 Ht) (proj2 Ht)) as Hc.
  destruct (Rlt_dec 0 (a * cos theta)) as [_|Hn].
  - replace (a * sin theta / (a * cos theta)) with (tan theta)
      by (unfold tan; field; lra).
    now apply atan_tan.
  - destruct Hn. now apply Rmult_lt_0_compat.
Qed.

Lemma norm_test_data : 0.4 < norm test_data < 0.6.
Proof.
  unfold norm, test_data. simpl.
  replace (0.1 * 0.1 + (0.2 * 0.2 + (0.3 * 0.3 + (0.4 * 0.4 + 0)))) with 0.3
    by lra.
  rewrite <- (sqrt_square 0.4), <- (sqrt_square 0.6) by lra.
  split; apply sqrt_lt_1; lra.
Qed.

(** Protecting and unprotecting a phase vector keeps its first entry, up to
    two positive scalings. *)
Lemma phase_protection_head (z : C) (v : list C) :
  0 < fst z ->
  exists a rest,
    0 < a /\
    _remove_error_protection (_apply_error_protection (z :: v) "phase") "phase"
    = Cscale z a :: rest.
Proof.
  intros Hz.
  set (p := tile (z :: v) 9).
  set (u := stride (cdiv_scalar p (cnorm p)) 9).
  assert (0 < cnorm p) as Hn1.
  { subst p. cbn [tile app]. now apply cnorm_cons_pos, Cabs_pos_fst. }
  assert (u = Cdiv z (cnorm p) :: stride_from 8 9
                (List.tl (cdiv_scalar p (cnorm p)))) as Hu by reflexivity.
  assert (0 < cnorm u) as Hn2.
  { rewrite Hu. apply cnorm_cons_pos, Cabs_pos_fst. simpl.
    now apply Rdiv_lt_0_compat. }
  exists (/ cnorm p * / cnorm u), (List.tl (cdiv_scalar u (cnorm u))).
  split.
  - apply Rmult_lt_0_compat; now apply Rinv_0_lt_compat.
  - change (_remove_error_protection
              (_apply_error_protection (z :: v) "phase") "phase")
      with (cdiv_scalar u (cnorm u)).
    rewrite Hu at 1. cbn [cdiv_scalar List.map List.tl]. f_equal.
    unfold Cdiv, Cscale. cbn [fst snd]. f_equal; field; lra.
Qed.


Lemma phase_encode_test_data :
  exists tl,
    _phase_encode 4 (_normalize_data test_data)
    = Ok (Cexp (Cscale (Cscale (0, 2) PI) (0.1 / norm test_data)) :: tl).
Proof. eexists. reflexivity. Qed.

Lemma Cnonzero_fst_pos (z : C) : 0 < fst z -> Cnonzero z = true.
Proof.
  intros Hz. unfold Cnonzero.
  destruct (Req_dec_T (fst z) 0) as [E|_]; [lra | reflexivity].
Qed.

(** The phase pipeline on the test vector, with the fidelity of the record
    left open: the first decoded value is the first normalised input. *)
Lemma phase_decode_first_value (now : readings) (f : R) :
  exists v rest,
    _phase_encode 4 (_normalize_data test_data) = Ok v /\
    decode_quantum_state 4 now
      {| timestamp := now 0%nat; method := "phase";
         state_vector := _apply_error_protection v "phase";
         n_qubits_used := length (_apply_error_protection v "phase");
         error_protected := true; fidelity := f |}
    = Ok (0.1 / norm test_data :: rest) /\
    0.1 + 0.00001 < 0.1 / norm test_data.
Proof.
  pose proof norm_test_data as [Hlo Hhi].
  destruct phase_encode_test_data as [tl Henc].
  set (x0 := 0.1 / norm test_data) in *.
  assert (0.1 + 0.00001 < x0 < 1 / 4) as [Hx0 Hx1].
  { subst x0. split.
    - apply Rmult_lt_reg_r with (norm test_data); [lra|].
      unfold Rdiv. rewrite Rmult_assoc, Rinv_l by lra. nra.
    - apply Rmult_lt_reg_r with (norm test_data); [lra|].
      unfold Rdiv at 1. rewrite Rmult_assoc, Rinv_l by lra. lra. }
  set (theta := 2 * PI * x0).
  assert (- (PI / 2) < theta < PI / 2) as Ht.
  { subst theta. pose proof PI_RGT_0. split; nra. }
  set (z0 := Cexp (Cscale (Cscale (0, 2) PI) x0)) in *.
  set (e := exp (0 * PI * x0)).
  assert (z0 = (e * cos theta, e * sin theta)) as Hz0 by reflexivity.
  assert (0 < e) as He by apply exp_pos.
  assert (0 < fst z0) as Hz.
  { rewrite Hz0. cbn [fst]. apply Rmult_lt_0_compat; [done|].
    apply cos_gt_0; tauto. }
  destruct (phase_protection_head z0 tl Hz) as (a & rest & Ha & Hrest).
  exists (z0 :: tl),
    (List.map (fun z => angle z / (2 * PI)) (List.filter Cnonzero rest)).
  split; [exact Henc|]. split; [|exact Hx0].
  unfold decode_quantum_state. cbn [method state_vector error_protected].
  change (String.eqb "phase" "amplitude") with false.
  change (String.eqb "phase" "phase") with true. cbv iota.
  rewrite Hrest. unfold _phase_decode. cbn [List.filter].
  rewrite Cnonzero_fst_pos
    by (unfold Cscale; cbn [fst]; now apply Rmult_lt_0_compat).
  cbn [List.map]. do 2 f_equal.
  unfold angle, Cscale. rewrite Hz0. cbn [fst snd].
  replace (e * sin theta * a) with (e * a * sin theta) by ring.
  replace (e * cos theta * a) with (e * a * cos theta) by ring.
  rewrite arctan2_polar by (try apply Rmult_lt_0_compat; done).
  subst theta. pose proof PI_RGT_0. field. lra.
Qed.

End PhasePipeline.

Section EncoderClaims.

Import Np Encoder.




(** C5 on the code: with four qubits the phase encoding of
    [0.1, 0.2, 0.3, 0.4] has 16 entries, 144 once protected, and the
    fidelity of the record is a [np.dot] with the 4 normalised inputs, which
    raises, with or without protection: there is no record to decode.  And
    were the protected vector handed to [decode_quantum_state] in a record,
    whatever its fidelity field, the first decoded value would be the first
    normalised input 0.1 / |data|, which is farther than 1e-5 from 0.1. *)
Lemma phase_round_trip_fails :
  (encode_quantum_state 4 noon test_data "phase" true
     = Raise (ValueError "shapes not aligned") /\
   encode_quantum_state 4 noon test_data "phase" false
     = Raise (ValueError "shapes not aligned")) /\
  forall f : R,
    exists v rest,
      _phase_encode 4 (_normalize_data test_data) = Ok v /\
      decode_quantum_state 4 noon
        {| timestamp := noon 0; method := "phase";
           state_vector := _apply_error_protection v "phase";
           n_qubits_used := length (_apply_error_protection v "phase");
           error_protected := true; fidelity := f |}
      = Ok (0.1 / norm test_data :: rest)%R /\
      (0.1 + 0.00001 < 0.1 / norm test_data)%R.
Proof.
  split; [split; reflexivity|].
  intros f. apply phase_decode_first_value.
Qed.

(** C7 on the code: with four qubits the superdense accumulator has
    2^(2*2) = 16 entries and a Bell state has 4, so the first [+=] of the
    loop raises for every input of four values, with or without protection:
    there is no superdense record to decode. *)
Lemma superdense_encode_raises :
  forall (now : readings) (a b c d : R) (error_protection : bool),
    encode_quantum_state 4 now [a; b; c; d] "superdense" error_protection
    = Raise (ValueError "operands could not be broadcast together").
Proof. reflexivity. Qed.

(** The vector of the test is one of them. *)
Example superdense_encode_test_data :
  encode_quantum_state 4 noon test_data "superdense" true
  = Raise (ValueError "operands could not be broadcast together").
Proof. reflexivity. Qed.

End EncoderClaims.

(** * Further properties of the code *)

(** ** Shapes and outcomes of the encoder *)

Section EncoderOutcomes.

Import Np Encoder.

Lemma pad_width_negative (n_qubits len : nat) :
  (2 ^ Z.of_nat n_qubits - Z.of_nat len <? 0)%Z = negb (len <=? 2 ^ n_qubits).
Proof.
  replace (2 ^ Z.of_nat n_qubits)%Z with (Z.of_nat (2 ^ n_qubits))
    by (now rewrite Nat2Z.inj_pow).
  destruct (Nat.leb_spec len (2 ^ n_qubits)); simpl; lia.
Qed.

Lemma pad_right_full_shape {A} (zero : A) (n_qubits : nat) (v : list A) :
  shape (pad_right zero v (2 ^ Z.of_nat n_qubits - Z.of_nat (length v))) =
  if length v <=? 2 ^ n_qubits
  then Ok (2 ^ n_qubits)
  else Raise (ValueError "index can't contain negative values").
Proof.
  rewrite pad_right_shape, pad_width_negative.
  destruct (Nat.leb_spec (length v) (2 ^ n_qubits)); simpl; [|reflexivity].
  f_equal.
  replace (2 ^ Z.of_nat n_qubits)%Z with (Z.of_nat (2 ^ n_qubits))
    by (now rewrite Nat2Z.inj_pow).
  lia.
Qed.

(** The length of what the two padded methods produce. *)
Lemma padded_shapes (n_qubits : nat) (data : list R) :
  shape (_amplitude_encode n_qubits data) =
    (if length data <=? 2 ^ n_qubits
     then Ok (2 ^ n_qubits)
     else Raise (ValueError "index can't contain negative values")) /\
  shape (_phase_encode n_qubits data) =
    (if length data <=? 2 ^ n_qubits
     then Ok (2 ^ n_qubits)
     else Raise (ValueError "index can't contain negative values")).
Proof.
  split.
  - rewrite _amplitude_encode_shape. apply pad_right_full_shape.
  - unfold _phase_encode. rewrite pad_right_full_shape.
    now rewrite length_map.
Qed.

(** X1: the amplitude and the phase encoding pad an input of at most 2^N
    values to exactly 2^N entries, and raise ValueError on a longer one. *)
Theorem padded_encodings_shape (n_qubits : nat) (data : list R) :
  shape (_amplitude_encode n_qubits data) =
    (if length data <=? 2 ^ n_qubits
     then Ok (2 ^ n_qubits)
     else Raise (ValueError "index can't contain negative values")) /\
  shape (_phase_encode n_qubits data) =
    (if length data <=? 2 ^ n_qubits
     then Ok (2 ^ n_qubits)
     else Raise (ValueError "index can't contain negative values")).
Proof. exact (padded_shapes n_qubits data). Qed.

Lemma _apply_error_protection_factor (v : list C) (method : string) :
  length (_apply_error_protection v method) =
  length v * (if String.eqb method "amplitude" then 3
              else if String.eqb method "phase" then 9 else 7).
Proof.
  unfold _apply_error_protection. rewrite length_cdiv_scalar.
  unfold _apply_phase_flip_code, _apply_stabilizer_code.
  repeat destruct (String.eqb method _);
    rewrite ?length_np_repeat, ?length_tile; lia.
Qed.

(** The outcome of the [try] block of [encode_quantum_state] once the
    method has produced its vector: only the fidelity can still raise. *)
Lemma encode_tail_raised (now : readings) (normalized : list R)
    (encoded : list C) (method : string) (error_protection : bool) :
  raised (f ← _calculate_encoding_fidelity normalized encoded;
          mret {| timestamp := now 0;
                  method := method;
                  state_vector := encoded;
                  n_qubits_used := length encoded;
                  error_protected := error_protection;
                  fidelity := f |}) =
  if length normalized =? length encoded
  then None else Some (ValueError "shapes not aligned").
Proof.
  rewrite <- _calculate_encoding_fidelity_raised.
  now destruct (_calculate_encoding_fidelity normalized encoded).
Qed.

(** What the [try] block of [encode_quantum_state] raises for the two
    padded methods, by the length of the data. *)
Lemma encode_padded_raised (n_qubits : nat) (now : readings) (data : list R)
    (method : string) (error_protection : bool) :
  method = "amplitude" \/ method = "phase" ->
  raised (encoding_result_of n_qubits now data method error_protection) =
  if length data <=? 2 ^ n_qubits
  then (if length data =? 2 ^ n_qubits * (if error_protection
                                          then (if String.eqb method "amplitude"
                                                then 3 else 9)
                                          else 1)
        then None else Some (ValueError "shapes not aligned"))
  else Some (ValueError "index can't contain negative values").
Proof.
  intros Hm.
  pose proof (padded_shapes n_qubits (_normalize_data data))
    as [Ha Hp].
  rewrite length__normalize_data in Ha, Hp.
  unfold encoding_result_of.
  assert (exists config, dict_get (configs n_qubits) method = Some config /\
                         cfg_error_protection config = true) as (cfg & -> & Hc)
    by (destruct Hm as [-> | ->]; eexists; split; reflexivity).
  assert ((if String.eqb method "amplitude"
           then _amplitude_encode n_qubits (_normalize_data data)
           else if String.eqb method "phase"
           then _phase_encode n_qubits (_normalize_data data)
           else if String.eqb method "superdense"
           then _superdense_encode n_qubits (_normalize_data data)
           else Raise (UnboundLocalError "encoded_state")) =
          (if String.eqb method "amplitude"
           then _amplitude_encode n_qubits (_normalize_data data)
           else _phase_encode n_qubits (_normalize_data data))) as ->
    by (destruct Hm as [-> | ->]; reflexivity).
  assert (shape (if String.eqb method "amplitude"
                 then _amplitude_encode n_qubits (_normalize_data data)
                 else _phase_encode n_qubits (_normalize_data data)) =
          if length data <=? 2 ^ n_qubits
          then Ok (2 ^ n_qubits)
          else Raise (ValueError "index can't contain negative values"))
    as Hs by (destruct (String.eqb method "amplitude"); assumption).
  destruct (if String.eqb method "amplitude" then _ else _) as [v|e];
    destruct (length data <=? 2 ^ n_qubits); simpl in Hs;
    try discriminate Hs; [|now injection Hs as ->].
  injection Hs as Hv. cbn [mbind result_mbind bind].
  rewrite Hc, andb_true_r, encode_tail_raised, length__normalize_data.
  destruct error_protection.
  - rewrite _apply_error_protection_factor, Hv.
    destruct Hm as [-> | ->]; reflexivity.
  - now rewrite Hv, Nat.mul_1_r.
Qed.

(** X2: with error protection, which is the default, the amplitude and the
    phase method never return a record: the protected vector is 3 or 9
    times 2^N entries long, never the length of the data, and the fidelity
    (or the padding, for data longer than 2^N) raises ValueError. *)
Theorem encode_protected_raises (n_qubits : nat) (now : readings)
    (data : list R) :
  (exists msg, encode_quantum_state n_qubits now data "amplitude" true
               = Raise (ValueError msg)) /\
  (exists msg, encode_quantum_state n_qubits now data "phase" true
               = Raise (ValueError msg)).
Proof.
  assert (forall method, method = "amplitude" \/ method = "phase" ->
            exists msg, encode_quantum_state n_qubits now data method true
                        = Raise (ValueError msg)) as H.
  { intros method Hm.
    pose proof (encode_padded_raised n_qubits now data method true Hm) as Hr.
    assert (0 < 2 ^ n_qubits) as Hpos by (apply Nat.neq_0_lt_0, Nat.pow_nonzero; lia).
    rewrite encode_quantum_state_outcome.
    destruct (encoding_result_of n_qubits now data method true) as [r|e];
      simpl in Hr.
    - exfalso.
      destruct (Nat.leb_spec (length data) (2 ^ n_qubits)); [|discriminate].
      destruct (Nat.eqb_spec (length data)
                  (2 ^ n_qubits * (if String.eqb method "amplitude"
                                   then 3 else 9))) as [E|_]; [|discriminate].
      destruct (String.eqb method "amplitude"); lia.
    - repeat destruct (_ <=? _); repeat destruct (_ =? _)%nat;
        try discriminate; injection Hr as ->; eauto. }
  split; apply H; auto.
Qed.

(** X3: [encode_quantum_state] never returns a record: a record that has
    been built is handed to [log_event], which cannot encode its state
    vector.  Without error protection the amplitude and the phase method
    end with that TypeError exactly for data of 2^N values, and with a
    ValueError of the fidelity or of the padding for all other data. *)
Theorem encode_unprotected_outcome (n_qubits : nat) (now : readings)
    (data : list R) (method : string) :
  method = "amplitude" \/ method = "phase" ->
  (forall (any_method : string) (error_protection : bool),
     exists e,
       encode_quantum_state n_qubits now data any_method error_protection
       = Raise e) /\
  encode_quantum_state n_qubits now data method false =
    Raise (if length data =? 2 ^ n_qubits
           then TypeError "Object of type ndarray is not JSON serializable"
           else if length data <=? 2 ^ n_qubits
           then ValueError "shapes not aligned"
           else ValueError "index can't contain negative values").
Proof.
  intros Hm. split.
  { intros any_method error_protection.
    rewrite encode_quantum_state_outcome. eauto. }
  pose proof (encode_padded_raised n_qubits now data method false Hm) as Hr.
  rewrite Nat.mul_1_r in Hr.
  rewrite encode_quantum_state_outcome. f_equal.
  destruct (encoding_result_of n_qubits now data method false) as [r|e];
    simpl in Hr.
  - destruct (Nat.leb_spec (length data) (2 ^ n_qubits)); [|discriminate].
    now destruct (length data =? 2 ^ n_qubits).
  - destruct (Nat.leb_spec (length data) (2 ^ n_qubits)) as [Hle|Hgt].
    + destruct (length data =? 2 ^ n_qubits); [discriminate|].
      now injection Hr as ->.
    + destruct (Nat.eqb_spec (length data) (2 ^ n_qubits)); [lia|].
      now injection Hr as ->.
Qed.

Lemma encode_unprotected_outcome_witness :
  (forall (any_method : string) (error_protection : bool),
     exists e,
       encode_quantum_state 2 noon [1; 2; 3; 4]%R any_method error_protection
       = Raise e) /\
  encode_quantum_state 2 noon [1; 2; 3; 4]%R "phase" false =
    Raise (if length [1; 2; 3; 4]%R =? 2 ^ 2
           then TypeError "Object of type ndarray is not JSON serializable"
           else if length [1; 2; 3; 4]%R <=? 2 ^ 2
           then ValueError "shapes not aligned"
           else ValueError "index can't contain negative values").
Proof.
  apply (encode_unprotected_outcome 2 noon [1; 2; 3; 4]%R "phase").
  right. reflexivity.
Defined.

End EncoderOutcomes.

(** ** The superdense method *)

Section Superdense.

Import Np Encoder.

Lemma length_bell_state (n_pairs i : nat) :
  length (nth (i mod 4) (_create_bell_states n_pairs) []) = 4.
Proof.
  pose proof (Nat.mod_upper_bound i 4 ltac:(lia)) as Hi.
  destruct (i mod 4) as [|[|[|[|k]]]]; [reflexivity.. | lia].
Qed.

Lemma iadd_bell_shape (encoded term : list C) :
  length term = 4 ->
  shape (iadd encoded term) =
  if length encoded =? 4 then Ok 4
  else Raise (ValueError "operands could not be broadcast together").
Proof.
  intros Ht. unfold iadd. rewrite Ht, (Nat.eqb_sym 4).
  destruct (Nat.eqb_spec (length encoded) 4) as [E|_]; simpl.
  - rewrite length_map, length_combine. f_equal. lia.
  - destruct term as [|a [|b term]]; [discriminate.. | reflexivity].
Qed.

(** The loop of [_superdense_encode]: it goes through on an accumulator
    of four entries and stops at the first value on any other. *)
Lemma superdense_loop_outcome (n_pairs : nat) (values : list R) :
  forall (i : nat) (encoded : list C),
    shape (superdense_loop (_create_bell_states n_pairs) i values encoded) =
    match values with
    | [] => Ok (length encoded)
    | _ :: _ =>
        if length encoded =? 4 then Ok 4
        else Raise (ValueError "operands could not be broadcast together")
    end.
Proof.
  induction values as [|x values IH]; intros i encoded; [reflexivity|].
  cbn [superdense_loop].
  pose proof (iadd_bell_shape encoded
                (List.map (fun b => RtoC (x * b))
                   (nth (i mod 4) (_create_bell_states n_pairs) []))) as Hs.
  rewrite length_map, length_bell_state in Hs. specialize (Hs eq_refl).
  destruct (iadd encoded _) as [encoded'|e]; simpl in Hs;
    destruct (length encoded =? 4); try discriminate Hs.
  - injection Hs as Hl. cbn [mbind result_mbind bind]. rewrite IH, Hl.
    now destruct values.
  - exact Hs.
Qed.

(** The outcome of the superdense encoding, by qubit pairs and data. *)
Lemma superdense_encode_outcome (n_qubits : nat) (data : list R) :
  shape (_superdense_encode n_qubits data) =
  match data with
  | [] => Ok (2 ^ (2 * (n_qubits / 2)))
  | _ :: _ =>
      if n_qubits / 2 <=? 1 then Ok (2 ^ (2 * (n_qubits / 2)))
      else Raise (ValueError "operands could not be broadcast together")
  end.
Proof.
  unfold _superdense_encode.
  pose proof (superdense_loop_outcome (n_qubits / 2)
                (firstn (n_qubits / 2) data) 0
                (czeros (2 ^ (2 * (n_qubits / 2))))) as Hs.
  unfold czeros in Hs at 2 3. rewrite repeat_length in Hs.
  assert (n_qubits / 2 = 0 \/ n_qubits / 2 = 1 \/ 2 <= n_qubits / 2)
    as [E|[E|E]] by lia.
  - rewrite E in *. cbn [firstn] in Hs.
    destruct (superdense_loop _ _ _ _) as [v|e]; simpl in Hs;
      [|discriminate].
    cbn [mbind result_mbind bind mret result_mret shape].
    rewrite length_cdiv_scalar. rewrite Hs. now destruct data.
  - rewrite E in *.
    destruct (superdense_loop _ _ _ _) as [v|e]; simpl in Hs.
    + cbn [mbind result_mbind bind mret result_mret shape].
      rewrite length_cdiv_scalar, Hs.
      destruct data; reflexivity.
    + destruct data; cbn in Hs; discriminate.
  - assert ((2 ^ (2 * (n_qubits / 2)) =? 4) = false) as Hne.
    { apply Nat.eqb_neq. intros H4.
      assert (2 ^ 4 <= 2 ^ (2 * (n_qubits / 2))) as H16
        by (apply Nat.pow_le_mono_r; lia).
      change (2 ^ 4) with 16 in H16. lia. }
    rewrite Hne in Hs.
    destruct (n_qubits / 2 <=? 1) eqn:El; [apply Nat.leb_le in El; lia|].
    destruct (n_qubits / 2) as [|p] eqn:Ep; [lia|].
    destruct data as [|x data]; cbn [firstn] in Hs.
    + destruct (superdense_loop _ _ _ _) as [v|e]; simpl in Hs;
        [|discriminate].
      cbn [mbind result_mbind bind mret result_mret shape].
      now rewrite length_cdiv_scalar.
    + destruct (superdense_loop _ _ _ _) as [v|e]; simpl in Hs;
        [discriminate|].
      exact Hs.
Qed.

(** X4: [_superdense_encode] returns a vector, of 4^(N/2) entries, only
    when the data are empty or N/2 is at most 1 (N below 4); with two or
    more qubit pairs the accumulator has 16 entries or more and the first
    addition of a 4-entry Bell state raises ValueError. *)
Theorem _superdense_encode_shape (n_qubits : nat) (data : list R) :
  shape (_superdense_encode n_qubits data) =
  match data with
  | [] => Ok (2 ^ (2 * (n_qubits / 2)))
  | _ :: _ =>
      if n_qubits / 2 <=? 1 then Ok (2 ^ (2 * (n_qubits / 2)))
      else Raise (ValueError "operands could not be broadcast together")
  end.
Proof. exact (superdense_encode_outcome n_qubits data). Qed.

(** X5: with four qubits or more, so with the default of twenty,
    [encode_quantum_state] never returns a superdense record, whatever the
    data and the protection flag. *)
Theorem superdense_needs_few_qubits (n_qubits : nat) (now : readings)
    (data : list R) (error_protection : bool) :
  4 <= n_qubits ->
  exists msg,
    encode_quantum_state n_qubits now data "superdense" error_protection
    = Raise (ValueError msg).
Proof.
  intros Hn.
  cut (exists msg,
         encoding_result_of n_qubits now data "superdense" error_protection
         = Raise (ValueError msg)).
  { intros [msg H]. exists msg.
    now rewrite encode_quantum_state_outcome, H. }
  assert (2 <= n_qubits / 2) as Hp
    by (apply (Nat.div_le_lower_bound n_qubits 2 2); lia).
  pose proof (superdense_encode_outcome n_qubits (_normalize_data data)) as Hs.
  destruct (Nat.leb_spec (n_qubits / 2) 1) as [Hle|_]; [lia|].
  unfold encoding_result_of. cbn [configs dict_get].
  change (String.eqb "amplitude" "superdense") with false.
  change (String.eqb "phase" "superdense") with false.
  change (String.eqb "superdense" "superdense") with true.
  change (String.eqb "superdense" "amplitude") with false.
  change (String.eqb "superdense" "phase") with false.
  cbv iota.
  destruct (_superdense_encode n_qubits (_normalize_data data)) as [v|e].
  - destruct (_normalize_data data) as [|x nd] eqn:End; [|discriminate Hs].
    cbn [shape] in Hs. injection Hs as Hv.
    cbn [mbind result_mbind bind].
    set (p := if error_protection && _ then _ else v).
    pose proof (_calculate_encoding_fidelity_raised [] p) as Hf.
    assert (length p <> 0) as Hlen.
    { assert (length v <> 0) as Hv0
        by (rewrite Hv; apply Nat.pow_nonzero; lia).
      subst p. destruct (_ && _); [|exact Hv0].
      rewrite _apply_error_protection_factor.
      change (String.eqb "superdense" "amplitude") with false.
      change (String.eqb "superdense" "phase") with false.
      cbv iota. lia. }
    destruct (_calculate_encoding_fidelity [] p) as [f|e]; simpl in Hf.
    + destruct (length p); [lia | discriminate].
    + destruct (length p); [lia|]. cbn in Hf. injection Hf as ->. eauto.
  - destruct (_normalize_data data); simpl in Hs; [discriminate|].
    injection Hs as ->. eauto.
Qed.

Lemma superdense_needs_few_qubits_witness :
  exists msg,
    encode_quantum_state 20 noon [0.5; 0.25]%R "superdense" true
    = Raise (ValueError msg).
Proof.
  apply (superdense_needs_few_qubits 20 noon [0.5; 0.25]%R true). lia.
Defined.

Lemma superdense_projections_shape (v : list C) (bell_states : list (list R)) :
  Forall (fun b => length b = 4) bell_states ->
  shape (superdense_projections v bell_states) =
  match bell_states with
  | [] => Ok 0
  | _ :: _ =>
      if length v =? 4 then Ok (length bell_states)
      else Raise (ValueError "shapes not aligned")
  end.
Proof.
  induction 1 as [|b bells Hb _ IH]; [reflexivity|].
  cbn [superdense_projections]. unfold dot at 1.
  rewrite length_map, Hb.
  destruct (length v =? 4) eqn:E; [|reflexivity].
  cbn [mbind result_mbind bind].
  destruct (superdense_projections v bells) as [l|e]; cbn [shape] in IH.
  - cbn. f_equal.
    destruct bells; injection IH as ->; reflexivity.
  - destruct bells; discriminate.
Qed.

(** The outcome of the superdense decoding, by the length of the vector. *)
Lemma superdense_decode_outcome (n_qubits : nat) (v : list C) :
  shape (_superdense_decode n_qubits v) =
  if length v =? 4 then Ok 4 else Raise (ValueError "shapes not aligned").
Proof.
  unfold _superdense_decode. rewrite superdense_projections_shape.
  - reflexivity.
  - unfold _create_bell_states. repeat constructor.
Qed.

(** X6: [_superdense_decode] returns exactly four projections when the
    state vector has four entries and raises ValueError on any other
    length, whatever the qubit count. *)
Theorem _superdense_decode_shape (n_qubits : nat) (v : list C) :
  shape (_superdense_decode n_qubits v) =
  if length v =? 4 then Ok 4 else Raise (ValueError "shapes not aligned").
Proof. exact (superdense_decode_outcome n_qubits v). Qed.

(** X7: a method name outside the three makes [encode_quantum_state]
    raise ValueError before it touches the data, and makes
    [decode_quantum_state] run into the unassigned [decoded_data]. *)
Theorem unknown_method_raises (n_qubits : nat) (now : readings)
    (data : list R) (error_protection : bool) (record : EncodingResult)
    (name : string) :
  name <> "amplitude" -> name <> "phase" -> name <> "superdense" ->
  encode_quantum_state n_qubits now data name error_protection
    = Raise (ValueError ("Unknown encoding method: " +:+ name)) /\
  (method record = name ->
   decode_quantum_state n_qubits now record
     = Raise (UnboundLocalError "decoded_data")).
Proof.
  intros Ha Hp Hs.
  apply String.eqb_neq in Ha, Hp, Hs.
  split.
  - rewrite encode_quantum_state_outcome.
    unfold encoding_result_of. cbn [configs dict_get].
    now rewrite (String.eqb_sym "amplitude"), Ha,
      (String.eqb_sym "phase"), Hp, (String.eqb_sym "superdense"), Hs.
  - intros Hm. unfold decode_quantum_state. now rewrite Hm, Ha, Hp, Hs.
Qed.

Lemma unknown_method_raises_witness :
  encode_quantum_state 4 noon test_data "basis" true
    = Raise (ValueError ("Unknown encoding method: " +:+ "basis")) /\
  (method {| timestamp := "t"; method := "basis"; state_vector := [];
             n_qubits_used := 0; error_protected := true;
             fidelity := 1%R |} = "basis" ->
   decode_quantum_state 4 noon
     {| timestamp := "t"; method := "basis"; state_vector := [];
        n_qubits_used := 0; error_protected := true; fidelity := 1%R |}
     = Raise (UnboundLocalError "decoded_data")).
Proof.
  apply (unknown_method_raises 4 noon test_data true
           {| timestamp := "t"; method := "basis"; state_vector := [];
              n_qubits_used := 0; error_protected := true;
              fidelity := 1%R |} "basis"); discriminate.
Defined.

End Superdense.

(** ** The protection codes *)

Section ProtectionCodes.

Import Np Encoder.

Lemma nth_stride_from {A} (k : nat) (d : A) (v : list A) :
  1 <= k ->
  forall s j, nth j (stride_from s k v) d = nth (s + j * k) v d.
Proof.
  intros Hk. induction v as [|a v IH]; intros s j.
  - simpl. now destruct j, (s + _).
  - destruct s as [|s]; cbn [stride_from].
    + destruct j as [|j]; [reflexivity|].
      cbn [nth]. rewrite IH.
      replace (0 + S j * k) with (S (Nat.pred k + j * k)) by lia.
      reflexivity.
    + rewrite IH. reflexivity.
Qed.

Lemma length_stride_from {A} (k : nat) (v : list A) :
  1 <= k ->
  forall s, length (stride_from s k v) = (length v + k - 1 - s) / k.
Proof.
  intros Hk. induction v as [|a v IH]; intros s.
  - simpl. symmetry. apply Nat.div_small. lia.
  - destruct s as [|s]; cbn [stride_from length].
    + rewrite IH.
      replace (S (length v) + k - 1 - 0) with (length v + 1 * k) by lia.
      rewrite Nat.div_add by lia.
      replace (length v + k - 1 - Nat.pred k) with (length v) by lia.
      lia.
    + rewrite IH. f_equal. lia.
Qed.

Lemma nth_tile {A} (d : A) (v : list A) (k : nat) :
  forall i, i < k * length v ->
    nth i (tile v k) d = nth (i mod length v) v d.
Proof.
  induction k as [|k IH]; intros i Hi; [lia|].
  cbn [tile].
  destruct (Nat.lt_ge_cases i (length v)) as [Hlt|Hge].
  - rewrite app_nth1 by done. now rewrite Nat.mod_small.
  - rewrite app_nth2 by done. rewrite IH by lia.
    replace i with (i - length v + 1 * length v) at 2 by lia.
    now rewrite Nat.Div0.mod_add.
Qed.

Lemma length_stride_tile {A} (v : list A) (k : nat) :
  1 <= k -> length (stride (tile v k) k) = length v.
Proof.
  intros Hk. unfold stride. rewrite length_stride_from, length_tile by done.
  replace (k * length v + k - 1 - 0) with (k - 1 + length v * k) by lia.
  rewrite Nat.div_add by lia. rewrite Nat.div_small; lia.
Qed.

Lemma nth_stride_tile {A} (d : A) (v : list A) (k j : nat) :
  1 <= k -> j < length v ->
  nth j (stride (tile v k) k) d = nth ((j * k) mod length v) v d.
Proof.
  intros Hk Hj. unfold stride. rewrite nth_stride_from by done.
  apply nth_tile. simpl. nia.
Qed.

(** X8: removing the phase-flip code (or the stabilizer code) after
    applying it gives a vector of the original length whose entry j is the
    original entry 9j (or 7j) modulo the length: the stride does not undo
    the tiling, it permutes the entries. *)
Theorem tiled_codes_permute (v : list C) (j : nat) (d : C) :
  j < length v ->
  (length (_remove_phase_flip_code (_apply_phase_flip_code v)) = length v /\
   nth j (_remove_phase_flip_code (_apply_phase_flip_code v)) d
   = nth ((j * 9) mod length v) v d) /\
  (length (_remove_stabilizer_code (_apply_stabilizer_code v)) = length v /\
   nth j (_remove_stabilizer_code (_apply_stabilizer_code v)) d
   = nth ((j * 7) mod length v) v d).
Proof.
  intros Hj.
  unfold _remove_phase_flip_code, _apply_phase_flip_code,
    _remove_stabilizer_code, _apply_stabilizer_code.
  rewrite !length_stride_tile, !nth_stride_tile by lia. done.
Qed.

Lemma tiled_codes_permute_witness :
  (length (_remove_phase_flip_code
             (_apply_phase_flip_code (List.map RtoC [1; 2; 3; 4; 5]%R))) = 5 /\
   nth 1 (_remove_phase_flip_code
            (_apply_phase_flip_code (List.map RtoC [1; 2; 3; 4; 5]%R)))
     (RtoC 0)
   = nth ((1 * 9) mod 5) (List.map RtoC [1; 2; 3; 4; 5]%R) (RtoC 0)) /\
  (length (_remove_stabilizer_code
             (_apply_stabilizer_code (List.map RtoC [1; 2; 3; 4; 5]%R))) = 5 /\
   nth 1 (_remove_stabilizer_code
            (_apply_stabilizer_code (List.map RtoC [1; 2; 3; 4; 5]%R)))
     (RtoC 0)
   = nth ((1 * 7) mod 5) (List.map RtoC [1; 2; 3; 4; 5]%R) (RtoC 0)).
Proof.
  apply (tiled_codes_permute (List.map RtoC [1; 2; 3; 4; 5]%R) 1 (RtoC 0)).
  simpl. lia.
Defined.

(** X9: on a vector whose length divides 8, so on every phase vector of
    at most three qubits, the phase-flip round trip is the identity; on the
    4 entries of a superdense vector the stabilizer round trip exchanges
    the second and the fourth entry. *)
Theorem tiled_codes_round_trip (v : list C) :
  8 mod length v = 0 ->
  _remove_phase_flip_code (_apply_phase_flip_code v) = v /\
  (forall a b c d : C,
     _remove_stabilizer_code (_apply_stabilizer_code [a; b; c; d])
     = [a; d; c; b]).
Proof.
  intros Hdiv. split; [|reflexivity].
  unfold _remove_phase_flip_code, _apply_phase_flip_code.
  apply (nth_ext _ _ (RtoC 0%R) (RtoC 0%R)).
  - apply length_stride_tile. lia.
  - rewrite length_stride_tile by lia. intros j Hj.
    rewrite nth_stride_tile by (lia || done). f_equal.
    apply Nat.Div0.div_exact in Hdiv.
    replace (j * 9) with (j + (j * (8 / length v)) * length v) by nia.
    rewrite Nat.Div0.mod_add. now apply Nat.mod_small.
Qed.

Lemma tiled_codes_round_trip_witness :
  _remove_phase_flip_code (_apply_phase_flip_code [RtoC 1%R; RtoC 2%R])
    = [RtoC 1%R; RtoC 2%R] /\
  (forall a b c d : C,
     _remove_stabilizer_code (_apply_stabilizer_code [a; b; c; d])
     = [a; d; c; b]).
Proof.
  apply (tiled_codes_round_trip [RtoC 1%R; RtoC 2%R]). reflexivity.
Defined.

End ProtectionCodes.

(** ** Values: norms, the repetition code and the amplitude round trip *)

Section EncoderValues.

Import Np Encoder.
Local Open Scope R_scope.

Lemma Cabs_sq (z : C) : Cabs z * Cabs z = fst z * fst z + snd z * snd z.
Proof.
  unfold Cabs. apply sqrt_sqrt.
  pose proof (Rle_0_sqr (fst z)) as Hf. pose proof (Rle_0_sqr (snd z)) as Hs.
  unfold Rsqr in *. lra.
Qed.

Lemma cnorm_sq (v : list C) :
  cnorm v * cnorm v = fold_right (fun z acc => Cabs z * Cabs z + acc) 0 v.
Proof. apply sqrt_sqrt, sum_squares_nonneg. Qed.

Lemma cnorm_nonneg (v : list C) : 0 <= cnorm v.
Proof. apply sqrt_pos. Qed.

Lemma cnorm_cdiv_scalar (v : list C) (c : R) :
  0 < c -> cnorm (cdiv_scalar v c) = cnorm v / c.
Proof.
  intros Hc. unfold cnorm.
  rewrite <- (sqrt_square c) at 2 by lra.
  rewrite <- sqrt_div_alt by (apply Rmult_lt_0_compat; lra). f_equal.
  induction v as [|z v IH]; simpl; [field; lra|].
  rewrite IH, !Cabs_sq. unfold Cdiv. cbn [fst snd]. field. lra.
Qed.

Lemma cnorm_np_repeat (v : list C) :
  cnorm (np_repeat v 3) = sqrt 3 * cnorm v.
Proof.
  unfold cnorm. rewrite <- sqrt_mult_alt by lra. f_equal.
  induction v as [|z v IH]; [simpl; lra|].
  change (np_repeat (z :: v) 3) with (z :: z :: z :: np_repeat v 3).
  cbn [fold_right]. rewrite IH. cbn [fold_right]. lra.
Qed.

Lemma stride_from_map {A B} (f : A -> B) (k : nat) (v : list A) :
  forall s, stride_from s k (List.map f v) = List.map f (stride_from s k v).
Proof.
  induction v as [|a v IH]; intros s; [reflexivity|].
  destruct s; cbn [List.map stride_from]; now rewrite IH.
Qed.

Lemma stride_cdiv_scalar (v : list C) (c : R) (k : nat) :
  stride (cdiv_scalar v c) k = cdiv_scalar (stride v k) c.
Proof. apply stride_from_map. Qed.

Lemma stride_np_repeat {A} (v : list A) :
  stride (np_repeat v 3) 3 = v.
Proof.
  induction v as [|a v IH]; [reflexivity|].
  change (np_repeat (a :: v) 3) with (a :: a :: a :: np_repeat v 3).
  unfold stride in *. cbn [stride_from Nat.pred]. now rewrite IH.
Qed.

Lemma cdiv_scalar_twice (v : list C) (a b : R) :
  a <> 0 -> b <> 0 ->
  cdiv_scalar (cdiv_scalar v a) b = cdiv_scalar v (a * b).
Proof.
  intros Ha Hb. unfold cdiv_scalar. rewrite map_map.
  apply map_ext. intros [x y]. unfold Cdiv. cbn [fst snd].
  f_equal; field; lra.
Qed.

(** X10: removing the repetition code after applying it returns the
    vector scaled to unit norm, for every vector that is not all zero: the
    stride picks the first copy of every entry, so this code, unlike the
    tiled ones, round-trips in order. *)
Theorem repetition_round_trip (v : list C) :
  0 < cnorm v ->
  _remove_error_protection (_apply_error_protection v "amplitude") "amplitude"
  = cdiv_scalar v (cnorm v).
Proof.
  intros Hv.
  unfold _remove_error_protection, _apply_error_protection.
  change (String.eqb "amplitude" "amplitude") with true. cbv iota.
  assert (0 < cnorm (np_repeat v 3)) as Hn.
  { rewrite cnorm_np_repeat. apply Rmult_lt_0_compat; [|done].
    apply sqrt_lt_R0. lra. }
  rewrite stride_cdiv_scalar, stride_np_repeat.
  rewrite cnorm_cdiv_scalar by done.
  rewrite cdiv_scalar_twice.
  - f_equal. field. lra.
  - lra.
  - apply Rgt_not_eq. apply Rdiv_lt_0_compat; lra.
Qed.

Lemma repetition_round_trip_witness :
  _remove_error_protection
    (_apply_error_protection [RtoC 3; RtoC 4] "amplitude") "amplitude"
  = cdiv_scalar [RtoC 3; RtoC 4] (cnorm [RtoC 3; RtoC 4]).
Proof.
  apply (repetition_round_trip [RtoC 3; RtoC 4]).
  apply cnorm_cons_pos, Cabs_pos_fst. simpl. lra.
Defined.

Lemma sq_nonneg (d : list R) :
  0 <= fold_right (fun x acc => x * x + acc) 0 d.
Proof.
  induction d as [|x d IH]; simpl; [lra|].
  pose proof (Rle_0_sqr x) as Hx. unfold Rsqr in Hx. lra.
Qed.

Lemma norm_pos (x : R) (d : list R) : x <> 0 -> 0 < norm (x :: d).
Proof.
  intros Hx. unfold norm. apply sqrt_lt_R0. simpl.
  pose proof (sq_nonneg d).
  assert (0 < x * x) by (destruct (Rtotal_order x 0) as [?|[?|?]]; nra).
  lra.
Qed.

Lemma norm_div_scalar (d : list R) (c : R) :
  0 < c -> norm (div_scalar d c) = norm d / c.
Proof.
  intros Hc. unfold norm.
  rewrite <- (sqrt_square c) at 2 by lra.
  rewrite <- sqrt_div_alt by (apply Rmult_lt_0_compat; lra). f_equal.
  induction d as [|x d IH]; simpl; [field; lra|].
  rewrite IH. field. lra.
Qed.

(** Normalised data have norm one, unless the norm of the data is zero. *)
Lemma norm__normalize_data (d : list R) :
  0 < norm d -> norm (_normalize_data d) = 1.
Proof.
  intros Hd. unfold _normalize_data. rewrite norm_div_scalar by done.
  field. lra.
Qed.

Lemma div_scalar_1 (d : list R) : div_scalar d 1 = d.
Proof.
  unfold div_scalar. rewrite <- (map_id d) at 2.
  apply map_ext. intros x. apply Rdiv_1_r.
Qed.

(** The sum [np.dot] computes on a real vector and its conjugate. *)
Lemma dot_self (d : list R) :
  dot (List.map RtoC d) (List.map Cconj (List.map RtoC d))
  = Ok (fold_right (fun x acc => x * x + acc) 0 d, 0).
Proof.
  unfold dot. rewrite !length_map, Nat.eqb_refl. f_equal.
  induction d as [|x d IH]; [reflexivity|].
  cbn [List.map combine fold_right]. rewrite IH.
  unfold Cadd, Cmul, Cconj, RtoC. cbn [fst snd]. f_equal; ring.
Qed.

Lemma _amplitude_decode_real (d : list R) :
  Forall (fun x => x <> 0) d ->
  _amplitude_decode (List.map RtoC d) = d.
Proof.
  unfold _amplitude_decode.
  induction 1 as [|x d Hx _ IH]; [reflexivity|].
  cbn [List.map List.filter]. unfold Cnonzero at 1. cbn [RtoC fst snd].
  destruct (Req_dec_T x 0) as [E|_]; [contradiction|].
  cbn [List.map fst]. now rewrite IH.
Qed.

(** X11: the amplitude round trip, step by step.  For data of exactly 2^N
    values, none of them zero, the amplitude encoding of the normalised
    data is the normalised data, and its fidelity is 1;
    [encode_quantum_state] still ends with the TypeError of logging the
    record; and [decode_quantum_state], given a record with that state
    vector, returns the normalised data, not the data. *)
Theorem amplitude_round_trip (n_qubits : nat) (now now' : readings)
    (data : list R) (stamp : string) (f : R) :
  length data = (2 ^ n_qubits)%nat ->
  Forall (fun x => x <> 0) data ->
  _amplitude_encode n_qubits (_normalize_data data)
    = Ok (List.map RtoC (_normalize_data data)) /\
  _calculate_encoding_fidelity (_normalize_data data)
    (List.map RtoC (_normalize_data data)) = Ok 1 /\
  encode_quantum_state n_qubits now data "amplitude" false
    = Raise (TypeError "Object of type ndarray is not JSON serializable") /\
  decode_quantum_state n_qubits now'
    {| timestamp := stamp; method := "amplitude";
       state_vector := List.map RtoC (_normalize_data data);
       n_qubits_used := (2 ^ n_qubits)%nat;
       error_protected := false; fidelity := f |}
    = Ok (_normalize_data data).
Proof.
  intros Hlen Hnz.
  assert (0 < norm data) as Hn.
  { destruct Hnz as [|x d Hx _]; [|now apply norm_pos].
    simpl in Hlen. pose proof (Nat.pow_nonzero 2 n_qubits). lia. }
  pose proof (norm__normalize_data data Hn) as H1.
  assert (_amplitude_encode n_qubits (_normalize_data data)
          = Ok (List.map RtoC (_normalize_data data))) as Henc.
  { unfold _amplitude_encode, pad_right.
    rewrite length__normalize_data, Hlen.
    replace (2 ^ Z.of_nat n_qubits - Z.of_nat (2 ^ n_qubits))%Z with 0%Z
      by (rewrite Nat2Z.inj_pow; simpl; lia).
    cbn [Z.ltb Z.compare Z.to_nat repeat mbind result_mbind bind mret
           result_mret].
    now rewrite app_nil_r, H1, div_scalar_1. }
  assert (_calculate_encoding_fidelity (_normalize_data data)
            (List.map RtoC (_normalize_data data)) = Ok 1) as Hfid.
  { unfold _calculate_encoding_fidelity. rewrite dot_self.
    cbn [mbind result_mbind bind mret result_mret]. f_equal.
    unfold Cabs. cbn [fst snd].
    assert (fold_right (fun x acc => x * x + acc) 0 (_normalize_data data) = 1)
      as ->.
    { rewrite <- (sqrt_sqrt (fold_right _ 0 _)) by apply sq_nonneg.
      fold (norm (_normalize_data data)). rewrite H1. lra. }
    replace (1 * 1 + 0 * 0) with 1 by lra. rewrite sqrt_1. lra. }
  split; [exact Henc|]. split; [exact Hfid|]. split.
  - rewrite encode_quantum_state_outcome. unfold encoding_result_of.
    cbn [configs dict_get].
    change (String.eqb "amplitude" "amplitude") with true. cbv iota.
    rewrite Henc. cbn [mbind result_mbind bind andb]. rewrite Hfid.
    reflexivity.
  - unfold decode_quantum_state.
    cbn [method state_vector error_protected].
    change (String.eqb "amplitude" "amplitude") with true. cbv iota.
    f_equal. apply _amplitude_decode_real.
    unfold _normalize_data, div_scalar. apply Forall_map.
    eapply Forall_impl; [exact Hnz|].
    intros x Hx. cbv beta. intros E.
    apply Hx. apply (Rmult_eq_reg_r (/ norm data)).
    + unfold Rdiv in E. rewrite E. ring.
    + apply Rinv_neq_0_compat. lra.
Qed.

Lemma amplitude_round_trip_witness :
  _amplitude_encode 1 (_normalize_data [3; 4])
    = Ok (List.map RtoC (_normalize_data [3; 4])) /\
  _calculate_encoding_fidelity (_normalize_data [3; 4])
    (List.map RtoC (_normalize_data [3; 4])) = Ok 1 /\
  encode_quantum_state 1 noon [3; 4] "amplitude" false
    = Raise (TypeError "Object of type ndarray is not JSON serializable") /\
  decode_quantum_state 1 noon
    {| timestamp := "t"; method := "amplitude";
       state_vector := List.map RtoC (_normalize_data [3; 4]);
       n_qubits_used := (2 ^ 1)%nat;
       error_protected := false; fidelity := 1 |}
    = Ok (_normalize_data [3; 4]).
Proof.
  apply (amplitude_round_trip 1 noon noon [3; 4] "t" 1).
  - reflexivity.
  - repeat constructor; lra.
Defined.

Lemma arctan2_range (y x : R) : - PI <= arctan2 y x <= PI.
Proof.
  pose proof PI_RGT_0 as Hpi. unfold arctan2.
  destruct (Rlt_dec 0 x) as [Hx|Hx].
  { pose proof (atan_bound (y / x)). split; lra. }
  destruct (Rlt_dec x 0) as [Hx'|Hx'].
  - pose proof (atan_bound (y / x)) as Hb.
    destruct (Rle_dec 0 y) as [Hy|Hy].
    + assert (atan (y / x) <= 0).
      { rewrite <- atan_0.
        destruct (Req_dec y 0) as [->|Hy0].
        - unfold Rdiv. rewrite Rmult_0_l. lra.
        - left. apply atan_increasing.
          apply Rmult_lt_reg_r with (- x); [lra|].
          unfold Rdiv. replace (y * / x * - x) with (- y) by (field; lra).
          lra. }
      split; lra.
    + assert (0 <= atan (y / x)).
      { rewrite <- atan_0. left. apply atan_increasing.
        apply Rmult_lt_reg_r with (- x); [lra|].
        unfold Rdiv. replace (y * / x * - x) with (- y) by (field; lra).
        lra. }
      split; lra.
  - destruct (Rlt_dec 0 y); [split; lra|].
    destruct (Rlt_dec y 0); split; lra.
Qed.

(** X12: [_phase_decode] only returns values between -1/2 and 1/2, one for
    every nonzero entry: a phase is recovered modulo 1, folded around 0. *)
Theorem _phase_decode_range (v : list C) :
  Forall (fun x => - (1 / 2) <= x <= 1 / 2) (_phase_decode v) /\
  length (_phase_decode v) = length (List.filter Cnonzero v).
Proof.
  unfold _phase_decode. split; [|apply length_map].
  apply Forall_map. apply Forall_forall. intros z _. cbv beta.
  pose proof (arctan2_range (snd z) (fst z)) as Ha. fold (angle z) in Ha.
  pose proof PI_RGT_0 as Hpi.
  split.
  - apply Rmult_le_reg_r with (2 * PI); [lra|].
    unfold Rdiv at 2. rewrite Rmult_assoc, Rinv_l by lra. lra.
  - apply Rmult_le_reg_r with (2 * PI); [lra|].
    unfold Rdiv at 1. rewrite Rmult_assoc, Rinv_l by lra. lra.
Qed.

End EncoderValues.

(** ** Error mitigation: reports and analysis *)

Section MitigationExtras.

Import Circuit Mitigation Analysis.

Lemma dict_get_dict_set {V} (d : list (string * V)) (k k' : string) (v : V) :
  dict_get (dict_set d k v) k' =
  if String.eqb k k' then Some v else dict_get d k'.
Proof.
  induction d as [|[k0 v0] d IH]; cbn [dict_set dict_get].
  - reflexivity.
  - destruct (String.eqb_spec k0 k) as [->|Hne]; cbn [dict_get].
    + now destruct (String.eqb k k').
    + destruct (String.eqb_spec k0 k') as [->|Hne'].
      * destruct (String.eqb_spec k k'); [congruence | reflexivity].
      * exact IH.
Qed.

(** Every entry of the analysis is the report of one of the models. *)
Lemma error_rates_entries (circuit : dictobj)
    (models : list (string * ErrorModel)) :
  forall (acc : list (string * RateReport)) (model_name : string)
         (report : RateReport),
    dict_get (fold_left (fun acc kv => dict_set acc (fst kv)
                                         (rate_report circuit (snd kv)))
                models acc) model_name = Some report ->
    dict_get acc model_name = Some report \/
    exists model, In model (List.map snd models) /\
                  report = rate_report circuit model.
Proof.
  induction models as [|[k m] models IH]; intros acc model_name report H.
  - now left.
  - cbn [fold_left fst snd] in H. apply IH in H as [H|(model & Hin & ->)].
    + rewrite dict_get_dict_set in H.
      destruct (String.eqb k model_name).
      * injection H as <-. right. exists m. split; [now left | reflexivity].
      * now left.
    + right. exists model. split; [now right | reflexivity].
Qed.

(** X13: in the analysis of error rates the current rate of a model is
    always nine tenths of its nominal rate, so a model is reported as
    needing mitigation exactly when its nominal rate is negative; with
    rates that are not negative every status is "acceptable". *)
Theorem analyze_error_rates_status (self : ErrorMitigationSystem)
    (now : readings) (circuit : dictobj) (model_name : string)
    (report : RateReport) :
  dict_get (error_rates (analyze_error_rates self now circuit)) model_name
    = Some report ->
  current_rate report = (threshold report * 0.9)%R /\
  ((0 <= threshold report)%R -> status report = "acceptable") /\
  ((threshold report < 0)%R -> status report = "needs_mitigation").
Proof.
  intros H. unfold analyze_error_rates in H. cbn [error_rates] in H.
  apply error_rates_entries in H as [H|(model & _ & ->)]; [discriminate|].
  unfold rate_report, _calculate_error_rate.
  cbn [current_rate threshold status].
  split; [reflexivity|].
  destruct (Rgt_dec (rate model * 0.9) (rate model)) as [Hgt|Hle];
    split; intros Hr; try reflexivity; lra.
Qed.

Lemma analyze_error_rates_status_witness :
  current_rate {| current_rate := 0.001 * 0.9; threshold := 0.001;
                  status := "acceptable" |}
    = (threshold {| current_rate := 0.001 * 0.9; threshold := 0.001;
                    status := "acceptable" |} * 0.9)%R /\
  ((0 <= threshold {| current_rate := 0.001 * 0.9; threshold := 0.001;
                      status := "acceptable" |})%R ->
   status {| current_rate := 0.001 * 0.9; threshold := 0.001;
             status := "acceptable" |} = "acceptable") /\
  ((threshold {| current_rate := 0.001 * 0.9; threshold := 0.001;
                 status := "acceptable" |} < 0)%R ->
   status {| current_rate := 0.001 * 0.9; threshold := 0.001;
             status := "acceptable" |} = "needs_mitigation").
Proof.
  apply (analyze_error_rates_status (__init__ {| n_qubits := 2 |}) noon
           {| py_id := 7; py_items := [] |} "decoherence").
  unfold analyze_error_rates. cbn.
  unfold rate_report, _calculate_error_rate. cbn.
  destruct (Rgt_dec (0.001 * 0.9) 0.001) as [Hgt|_]; [lra | reflexivity].
Defined.

Lemma _apply_strategy_success (now : string) (circuit : dictobj)
    (error_model : ErrorModel) :
  dict_get (_apply_strategy now circuit error_model) "success" =
  Some (PBool
          (String.eqb (mitigation_strategy error_model) "dynamical_decoupling"
           || String.eqb (mitigation_strategy error_model) "gate_optimization"
           || String.eqb (mitigation_strategy error_model)
                "readout_error_mitigation")).
Proof.
  unfold _apply_strategy.
  repeat (destruct (String.eqb (mitigation_strategy error_model) _));
    reflexivity.
Qed.

Lemma strategy_loop_Forall (P : dict -> Prop) (self : ErrorMitigationSystem)
    (now : readings) (circuit : dictobj) (strategies : list string) :
  (forall stamp s m, dict_get (error_models self) s = Some m ->
                     P (_apply_strategy stamp circuit m)) ->
  forall t applied,
    Forall P applied ->
    Forall P (strategy_loop self now circuit strategies t applied).
Proof.
  intros HP. induction strategies as [|s strategies IH]; intros t applied Ha;
    cbn [strategy_loop]; [exact Ha|].
  destruct (dict_get (error_models self) s) as [m|] eqn:E; [|now apply IH].
  apply IH. apply Forall_app. split; [exact Ha|].
  constructor; [|constructor]. eapply HP, E.
Qed.

(** X14: every result in a report of the system as constructed says
    success and lists all qubits of the manager as affected, whatever the
    circuit and whichever strategies were requested. *)
Theorem apply_error_mitigation_results (qcm : QuantumCircuitManager)
    (now : readings) (circuit : dictobj) (strategies : option (list string)) :
  Forall (fun r => dict_get r "success" = Some (PBool true) /\
                   dict_get r "affected_qubits"
                     = Some (PInts (seq 0 (n_qubits qcm))))
    (applied_strategies
       (apply_error_mitigation (__init__ qcm) now circuit strategies)).
Proof.
  unfold apply_error_mitigation. cbn [applied_strategies].
  apply strategy_loop_Forall; [|constructor].
  intros stamp s m Hm. split.
  - rewrite _apply_strategy_success.
    cbn [error_models __init__ dict_get] in Hm.
    repeat match type of Hm with
           | (if ?b then _ else _) = _ => destruct b
           end;
      try discriminate; injection Hm as <-; reflexivity.
  - cbn [error_models __init__ dict_get] in Hm.
    repeat match type of Hm with
           | (if ?b then _ else _) = _ => destruct b
           end;
      try discriminate; injection Hm as <-; reflexivity.
Qed.

Lemma strategy_loop_circuit (self : ErrorMitigationSystem) (now : readings)
    (c1 c2 : dictobj) (strategies : list string) :
  forall t applied,
    strategy_loop self now c1 strategies t applied =
    strategy_loop self now c2 strategies t applied.
Proof.
  induction strategies as [|s strategies IH]; intros t applied;
    cbn [strategy_loop]; [reflexivity|].
  destruct (dict_get (error_models self) s); apply IH.
Qed.

(** X15: the circuit handed to [apply_error_mitigation] only lends its
    address to the report: two circuits get the same results from the same
    system, clock and strategies, whatever their items. *)
Theorem apply_error_mitigation_ignores_circuit (self : ErrorMitigationSystem)
    (now : readings) (c1 c2 : dictobj) (strategies : option (list string)) :
  applied_strategies (apply_error_mitigation self now c1 strategies) =
  applied_strategies (apply_error_mitigation self now c2 strategies) /\
  Mitigation.circuit_id (apply_error_mitigation self now c1 strategies)
    = py_id c1.
Proof.
  split; [|reflexivity].
  unfold apply_error_mitigation. cbn [applied_strategies].
  apply strategy_loop_circuit.
Qed.

End MitigationExtras.

(** ** The memory interface: what a history leaves behind *)

Section MemoryExtras.

Import Circuit Memory.

Implicit Types (self : QuantumMemoryInterface) (calls : list call).

(** The keys after a history are the keys before it and the IDs issued. *)
Lemma run_keys calls :
  forall self, counted self ->
    forall k, is_Some (memory_states (run self calls) !! k) <->
              is_Some (memory_states self !! k) \/ k ∈ issued self calls.
Proof.
  induction calls as [|c calls IH]; intros self Hc k.
  { cbn. split; [now left | intros [H|H]; [done | inversion H]]. }
  cbn [run fold_left]. fold (run (after self c) calls).
  rewrite (IH _ (counted_after self c Hc)).
  destruct c as [now fresh data scheme md|sid|].
  - cbn [issued after].
    destruct (dict_get encoding_schemes (default "error_protected" scheme))
      as [encode|] eqn:E.
    + rewrite (store_state_known _ _ _ _ _ _ _ E). cbn [fst snd memory_states].
      rewrite elem_of_cons, lookup_insert_is_Some.
      pose proof (counted_fresh self (now 0) Hc) as Hf.
      split.
      * intros [[->|[_ H]]|H]; auto.
      * intros [H|[->|H]]; auto.
        destruct (decide (_generate_state_id self (now 0) = k)); auto.
    + rewrite (store_state_unknown _ _ _ _ _ _ E). cbn [fst snd]. done.
  - cbn [issued after]. done.
  - cbn [issued after monitor_state_fidelity snd memory_states].
    rewrite lookup_fmap, fmap_is_Some. done.
Qed.

Lemma run_size calls :
  forall self, counted self ->
    size (memory_states (run self calls))
    = size (memory_states self) + length (issued self calls).
Proof.
  induction calls as [|c calls IH]; intros self Hc; [cbn; lia|].
  cbn [run fold_left]. fold (run (after self c) calls).
  rewrite (IH _ (counted_after self c Hc)).
  destruct c as [now fresh data scheme md|sid|].
  - cbn [issued after].
    destruct (dict_get encoding_schemes (default "error_protected" scheme))
      as [encode|] eqn:E.
    + rewrite (store_state_known _ _ _ _ _ _ _ E). cbn [fst snd memory_states].
      rewrite map_size_insert_None by now apply counted_fresh.
      cbn [length]. lia.
    + rewrite (store_state_unknown _ _ _ _ _ _ E). cbn [fst snd]. done.
  - cbn [issued after]. done.
  - cbn [issued after monitor_state_fidelity snd memory_states].
    now rewrite map_size_fmap.
Qed.

(** X16: nothing issued is lost.  After any history of an interface,
    every state ID that one of its store calls returned can still be
    retrieved, and the interface holds at least as many states as IDs were
    returned: no call removes or overwrites a state. *)
Theorem issued_states_are_kept qcm ems calls :
  length (issued (__init__ qcm ems) calls)
    <= size (memory_states (run (__init__ qcm ems) calls)) /\
  Forall (fun state_id =>
            exists data,
              retrieve_state (run (__init__ qcm ems) calls) state_id
              = Ok data)
    (issued (__init__ qcm ems) calls).
Proof.
  pose proof (counted_init qcm ems) as Hc.
  split.
  - rewrite run_size by done. lia.
  - apply Forall_forall. intros state_id Hin.
    pose proof (run_keys calls _ Hc state_id) as [_ Hk].
    destruct (Hk (or_intror Hin)) as [st Hst].
    unfold retrieve_state. rewrite Hst. eauto.
Qed.

(** X17: what comes back after a store.  For a registered scheme,
    retrieving the ID that [store_state] returned gives min(K, N) zeros, K
    the length of the data and N the capacity: the length of the data
    exactly when the data fit the capacity. *)
Theorem retrieve_after_store
    self now fresh data encoding_scheme metadata encode :
  dict_get encoding_schemes (default "error_protected" encoding_scheme)
    = Some encode ->
  let out := store_state self now fresh data encoding_scheme metadata in
  exists state_id,
    fst out = Ok state_id /\
    retrieve_state (snd out) state_id
      = Ok (Np.zeros (Nat.min (length data)
                        (n_qubits (circuit_manager self)))).
Proof.
  intros E out. subst out. rewrite (store_state_known _ _ _ _ _ _ _ E).
  eexists. split; [reflexivity|]. cbn [snd].
  unfold retrieve_state. cbn [memory_states]. rewrite lookup_insert_eq.
  unfold _decode_state. cbn [qubits]. unfold _allocate_qubits.
  rewrite take_seq, length_seq. do 3 f_equal.
  cbn [encoding_schemes dict_get] in E.
  repeat match type of E with
         | (if ?b then _ else _) = _ => destruct b
         end; try discriminate; now injection E as <-.
Qed.

Lemma retrieve_after_store_witness :
  exists state_id,
    fst (store_state small noon 7 [1; 2; 3]%R None None) = Ok state_id /\
    retrieve_state (snd (store_state small noon 7 [1; 2; 3]%R None None))
      state_id
    = Ok (Np.zeros (Nat.min (length [1; 2; 3]%R)
                      (n_qubits (circuit_manager small)))).
Proof.
  apply (retrieve_after_store small noon 7 [1; 2; 3]%R None None
           _error_protected_encoding).
  reflexivity.
Defined.

Lemma well_formed_after self c :
  map_Forall (well_formed (n_qubits (circuit_manager self)))
    (memory_states self) ->
  circuit_manager (after self c) = circuit_manager self /\
  map_Forall (well_formed (n_qubits (circuit_manager self)))
    (memory_states (after self c)).
Proof.
  intros H. destruct c as [now fresh data scheme md|sid|]; cbn [after].
  - destruct (dict_get encoding_schemes (default "error_protected" scheme))
      as [encode|] eqn:E.
    + rewrite (store_state_known _ _ _ _ _ _ _ E).
      cbn [snd memory_states circuit_manager]. split; [reflexivity|].
      apply map_Forall_insert_2; [|exact H].
      split; [reflexivity|]. cbn [qubits encoding]. split.
      * unfold _allocate_qubits. rewrite take_seq. eexists. split; [|done].
        lia.
      * rewrite E. eauto.
    + rewrite (store_state_unknown _ _ _ _ _ _ E). now split.
  - now split.
  - cbn [monitor_state_fidelity snd memory_states circuit_manager].
    split; [reflexivity|].
    apply map_Forall_fmap. eapply map_Forall_impl; [exact H|].
    intros k st Hst. exact Hst.
Qed.

(** X18: in every state of a history, every MemoryState held sits under
    its own ID, names a registered scheme, and owns the qubits 0 .. n-1 for
    some n up to the capacity: the lists never exceed the capacity, and any
    two of them overlap from qubit 0 on, since nothing is ever reserved. *)
Theorem held_states_well_formed qcm ems calls :
  map_Forall (well_formed (n_qubits qcm))
    (memory_states (run (__init__ qcm ems) calls)).
Proof.
  assert (forall self,
            map_Forall (well_formed (n_qubits (circuit_manager self)))
              (memory_states self) ->
            map_Forall (well_formed (n_qubits (circuit_manager self)))
              (memory_states (run self calls))) as H.
  { induction calls as [|c calls IH]; intros self Hs; [exact Hs|].
    cbn [run fold_left]. fold (run (after self c) calls).
    destruct (well_formed_after self c Hs) as [Hcm Hwf].
    rewrite <- Hcm in *. now apply IH. }
  apply (H (__init__ qcm ems)). cbn. apply map_Forall_empty.
Qed.

Lemma decay_repeat self (n : nat) (k : string) :
  memory_states (run self (repeat Monitor n)) !! k
  = Nat.iter n decay <$> memory_states self !! k.
Proof.
  revert self. induction n as [|n IH]; intros self.
  - cbn. now destruct (memory_states self !! k).
  - cbn [repeat run fold_left]. fold (run (after self Monitor) (repeat Monitor n)).
    rewrite IH. cbn [after monitor_state_fidelity snd memory_states].
    rewrite lookup_fmap. destruct (memory_states self !! k); [|reflexivity].
    cbn [fmap option_fmap option_map]. now rewrite Nat.iter_succ_r.
Qed.

Lemma fidelity_iter_decay (n : nat) (st : MemoryState) :
  fidelity (Nat.iter n decay st)
  = (fidelity st * exp (- 0.01 * INR n))%R.
Proof.
  induction n as [|n IH].
  - cbn. replace (-0.01 * 0)%R with 0%R by lra. rewrite exp_0. lra.
  - rewrite Nat.iter_succ, decay_fidelity, IH, S_INR.
    replace (-0.01 * (INR n + 1))%R with (-0.01 * INR n + -0.1 * 0.1)%R
      by lra.
    rewrite exp_plus. lra.
Qed.

(** X19: n monitor calls in a row multiply the fidelity of every held
    state by exp(-0.01 n) and change no other field; the decay compounds
    with the number of calls, not with time. *)
Theorem monitor_compounds self (n : nat) :
  map_Forall
    (fun k st =>
       exists st',
         memory_states (run self (repeat Monitor n)) !! k = Some st' /\
         fidelity st' = (fidelity st * exp (- 0.01 * INR n))%R /\
         (id st', qubits st', encoding st', timestamp st', metadata st')
         = (id st, qubits st, encoding st, timestamp st, metadata st))
    (memory_states self).
Proof.
  intros k st Hk. rewrite decay_repeat, Hk. cbn.
  eexists. split; [reflexivity|]. split; [apply fidelity_iter_decay|].
  clear. induction n as [|n IH]; [reflexivity|].
  rewrite Nat.iter_succ.
  cbn [decay id qubits encoding timestamp metadata]. exact IH.
Qed.

(** X20: on every state an interface can reach, a monitor call reports a
    fidelity strictly below the one held before, for every state held. *)
Theorem monitor_strictly_decreases qcm ems calls :
  map_Forall
    (fun k st =>
       exists f,
         fst (monitor_state_fidelity (run (__init__ qcm ems) calls)) !! k
           = Some f /\
         (f < fidelity st)%R)
    (memory_states (run (__init__ qcm ems) calls)).
Proof.
  intros k st Hk.
  pose proof (fidelity_ok_run (__init__ qcm ems) calls) as Hok.
  specialize (Hok ltac:(cbn; apply map_Forall_empty) k st Hk).
  cbn beta in Hok.
  exists (fidelity (decay st)). split; [|now apply decay_strict].
  unfold monitor_state_fidelity. cbn [fst]. now rewrite !lookup_fmap, Hk.
Qed.

End MemoryExtras.

(** ** The circuit manager *)

Section CircuitExtras.

Import Circuit CircuitManager.

(** X21: a learning circuit validates under a manager exactly when that
    manager has the qubit count of the manager that created it; the
    connectivity and error-rate checks pass for every created circuit,
    whatever the input shape and the optimization level, which is stored
    unchecked. *)
Theorem validate_created_circuit (creator validator : QuantumCircuitManager)
    (now now' : readings) (address : Z) (input_shape : list Z)
    (optimization_level : Z) :
  validate_circuit validator now'
    {| c_id := address;
       c_items := create_learning_circuit creator now input_shape
                    optimization_level |}
  = Return {| timestamp := now' 0;
              circuit_id := address;
              checks := [ ("qubit_count",
                           n_qubits creator =? n_qubits validator);
                          ("connectivity", true);
                          ("error_rates", true) ];
              valid := n_qubits creator =? n_qubits validator |}.
Proof.
  unfold validate_circuit, _validate_qubit_count. cbn.
  assert ((Z.of_nat (n_qubits creator) =? Z.of_nat (n_qubits validator))%Z
          = (n_qubits creator =? n_qubits validator)) as ->.
  { destruct (Nat.eqb_spec (n_qubits creator) (n_qubits validator)).
    - apply Z.eqb_eq. lia.
    - apply Z.eqb_neq. lia. }
  now rewrite !andb_true_r.
Qed.

(** X22: validation is decided by the qubit count and the connectivity
    alone: the error-rate check is always true.  A circuit whose "config"
    entry is no dictionary is not reported invalid but raises
    AttributeError, and a circuit without "config" is invalid. *)
Theorem validate_circuit_outcome (self : QuantumCircuitManager)
    (now : readings) (circuit : circuitobj) :
  match dict_get (c_items circuit) "config" with
  | Some (VDict config) =>
      exists results,
        validate_circuit self now circuit = Return results /\
        dict_get (checks results) "error_rates" = Some true /\
        valid results =
          _validate_qubit_count self circuit &&
          in_strings (default VNone (dict_get config "connectivity"))
            ["all-to-all"; "nearest-neighbor"; "custom"]
  | Some _ =>
      validate_circuit self now circuit
      = AttributeError "object has no attribute 'get'"
  | None =>
      exists results,
        validate_circuit self now circuit = Return results /\
        valid results = false
  end.
Proof.
  unfold validate_circuit, _validate_connectivity, _validate_error_rates,
    config_of.
  destruct (dict_get (c_items circuit) "config") as [[| | | | | |config]|];
    try reflexivity.
  - eexists. split; [reflexivity|]. split; [reflexivity|].
    cbn [valid forallb snd]. now rewrite andb_true_r.
  - eexists. split; [reflexivity|].
    cbn [valid forallb snd dict_get default in_strings].
    now rewrite andb_false_r.
Qed.

End CircuitExtras.

(** ** The superdense round trip on two or three qubits *)

Section SuperdenseRoundTrip.

Import Np Encoder.

Lemma _remove_error_protection_tiled (v : list C) (c : R) :
  length (_remove_error_protection (cdiv_scalar (tile v 7) c) "superdense")
  = length v.
Proof.
  unfold _remove_error_protection.
  change (String.eqb "superdense" "amplitude") with false.
  change (String.eqb "superdense" "phase") with false. cbv iota.
  unfold _remove_stabilizer_code.
  rewrite length_cdiv_scalar, stride_cdiv_scalar, length_cdiv_scalar.
  apply length_stride_tile. lia.
Qed.

(** X23: the superdense round trip, step by step.  With one qubit pair
    (two or three qubits) and data of 4 values without protection, or of
    28 values with it, [_superdense_encode] gives a vector of four entries
    and the record is built; [encode_quantum_state] then ends with the
    TypeError of logging it; and [decode_quantum_state], given a record
    with that state vector, returns exactly four projections. *)
Theorem superdense_round_trip (n_qubits : nat) (now now' : readings)
    (data : list R) (error_protection : bool) (stamp : string) (f : R) :
  n_qubits / 2 = 1 ->
  length data = (if error_protection then 28 else 4) ->
  exists v decoded,
    _superdense_encode n_qubits (_normalize_data data) = Ok v /\
    length v = 4 /\
    encode_quantum_state n_qubits now data "superdense" error_protection
      = Raise (TypeError "Object of type ndarray is not JSON serializable") /\
    decode_quantum_state n_qubits now'
      {| timestamp := stamp; method := "superdense";
         state_vector := (if error_protection
                          then _apply_error_protection v "superdense"
                          else v);
         n_qubits_used := length data;
         error_protected := error_protection; fidelity := f |}
      = Ok decoded /\
    length decoded = 4.
Proof.
  intros Hp Hlen.
  pose proof (superdense_encode_outcome n_qubits (_normalize_data data)) as Hs.
  rewrite Hp in Hs. cbn [Nat.leb Nat.mul Nat.add Nat.pow] in Hs.
  assert (shape (_superdense_encode n_qubits (_normalize_data data)) = Ok 4)
    as Hs4.
  { rewrite Hs. destruct (_normalize_data data) eqn:E; [|reflexivity].
    apply (f_equal (@length R)) in E. rewrite length__normalize_data in E.
    destruct error_protection; rewrite Hlen in E; discriminate. }
  clear Hs.
  destruct (_superdense_encode n_qubits (_normalize_data data)) as [v|e] eqn:Ev;
    [|discriminate Hs4].
  cbn [shape] in Hs4. injection Hs4 as Hv.
  set (p := if error_protection
            then _apply_error_protection v "superdense" else v).
  assert (length p = length data) as Hpl.
  { subst p. destruct error_protection; [|congruence].
    rewrite _apply_error_protection_factor, Hv, Hlen. reflexivity. }
  pose proof (_calculate_encoding_fidelity_raised (_normalize_data data) p)
    as Hf.
  rewrite length__normalize_data, Hpl, Nat.eqb_refl in Hf.
  pose proof (superdense_decode_outcome n_qubits
                (if error_protection
                 then _remove_error_protection p "superdense" else p)) as Hd.
  assert (length (if error_protection
                  then _remove_error_protection p "superdense" else p) = 4)
    as Hu.
  { subst p. destruct error_protection; [|exact Hv].
    unfold _apply_error_protection.
    change (String.eqb "superdense" "amplitude") with false.
    change (String.eqb "superdense" "phase") with false. cbv iota.
    unfold _apply_stabilizer_code.
    now rewrite _remove_error_protection_tiled. }
  rewrite Hu in Hd. cbn [Nat.eqb] in Hd.
  destruct (_superdense_decode n_qubits _) as [decoded|e] eqn:Ed;
    [|discriminate Hd].
  cbn [shape] in Hd. injection Hd as Hd.
  exists v, decoded. split; [reflexivity|]. split; [exact Hv|].
  split; [|split; [|exact Hd]].
  - rewrite encode_quantum_state_outcome. unfold encoding_result_of.
    cbn [configs dict_get].
    change (String.eqb "amplitude" "superdense") with false.
    change (String.eqb "phase" "superdense") with false.
    change (String.eqb "superdense" "superdense") with true.
    change (String.eqb "superdense" "amplitude") with false.
    change (String.eqb "superdense" "phase") with false.
    cbv iota. cbn [cfg_error_protection]. rewrite andb_true_r, Ev.
    cbn [mbind result_mbind bind]. fold p.
    destruct (_calculate_encoding_fidelity (_normalize_data data) p);
      [reflexivity | discriminate Hf].
  - unfold decode_quantum_state. cbn [method state_vector error_protected].
    change (String.eqb "superdense" "amplitude") with false.
    change (String.eqb "superdense" "phase") with false.
    change (String.eqb "superdense" "superdense") with true.
    cbv iota. fold p. exact Ed.
Qed.

Lemma superdense_round_trip_witness :
  exists v decoded,
    _superdense_encode 2 (_normalize_data test_data) = Ok v /\
    length v = 4 /\
    encode_quantum_state 2 noon test_data "superdense" false
      = Raise (TypeError "Object of type ndarray is not JSON serializable") /\
    decode_quantum_state 2 noon
      {| timestamp := "t"; method := "superdense";
         state_vector := (if false
                          then _apply_error_protection v "superdense"
                          else v);
         n_qubits_used := length test_data;
         error_protected := false; fidelity := 1%R |}
      = Ok decoded /\
    length decoded = 4.
Proof.
  apply (superdense_round_trip 2 noon noon test_data false "t" 1%R);
    reflexivity.
Defined.

End SuperdenseRoundTrip.
